(** * send-test-messages.py: the order-event test publisher

    A shallow embedding of [scripts/send-test-messages.py] and the
    properties its specification states about it.

    The script talks to four collaborators: the wall clock, the
    pseudo-random generator, the Kafka producer and the console.  Their
    answers are gathered in a [world]; the calls the script makes are
    recorded, in order, in the [trace] of a [state].  Python's exceptions
    are the [Raised] outcome of a small state-and-exception monad [py]. *)

From Stdlib Require Import ZArith List String Ascii Bool Lia PeanoNat FinFun.
From Stdlib Require Import Decimal DecimalString DecimalZ.
From Stdlib Require Import PrimFloat.
Import ListNotations.

Open Scope list_scope.
Open Scope string_scope.

(** ** Python values used by the script *)

(** Exceptions, as far as the handlers of the script tell them apart.
    The [text] carried by an exception is what [str(e)] gives.
    [KafkaError] stands for [kafka.errors.KafkaError] and its subclasses,
    [OtherException] for every other subclass of [Exception];
    [KeyboardInterrupt] and [SystemExit] derive from [BaseException]
    only. *)
Inductive exn : Type :=
| KafkaError (text : string)
| KeyboardInterrupt
| OtherException (text : string)
| SystemExit (code : Z).

Definition exn_str (e : exn) : string :=
  match e with
  | KafkaError t => t
  | KeyboardInterrupt => ""
  | OtherException t => t
  | SystemExit c => NilZero.string_of_int (Z.to_int c)
  end.

(** [isinstance(e, KafkaError)] and [isinstance(e, Exception)]. *)
Definition is_KafkaError (e : exn) : bool :=
  match e with KafkaError _ => true | _ => false end.

Definition is_Exception (e : exn) : bool :=
  match e with KafkaError _ | OtherException _ => true | _ => false end.

(** The values stored in the message: strings, lists and dicts (a dict
    keeps the insertion order of its keys). *)
#[warnings="-register-all"]
Inductive pyval : Type :=
| PStr (s : string)
| PList (items : list pyval)
| PDict (fields : list (string * pyval)).

Definition bytes := list Byte.byte.

(** What [future.get] returns on success. *)
Record record_metadata : Type := mk_metadata
  { topic : string; partition : Z; offset : Z }.

(** ** Strings *)

(** [str(n)] for an [int]. *)
Definition str_int (z : Z) : string := NilZero.string_of_int (Z.to_int z).

(** [int(s)] for the plain decimal literals, such as [str_int] writes:
    an optional minus sign and digits.  [None]: [s] is no such literal
    ([int] reads more than these: a plus sign, spaces around the number,
    underscores between digits, the other decimal digits of Unicode). *)
Definition int_of_str (s : string) : option Z :=
  option_map Z.of_int (NilZero.int_of_string s).

(** [s * n] *)
Fixpoint str_repeat (s : string) (n : nat) : string :=
  match n with
  | O => ""
  | S n' => s ++ str_repeat s n'
  end.

(** [sep.join(parts)] *)
Fixpoint str_join (sep : string) (parts : list string) : string :=
  match parts with
  | [] => ""
  | [p] => p
  | p :: rest => p ++ sep ++ str_join sep rest
  end.

(** [s.encode('utf-8')]: a [string] is already its sequence of bytes. *)
Definition encode_utf8 (s : string) : bytes := list_byte_of_string s.

(** [repr] and [str] of a value, for strings that need no escaping (the
    catalog entries and the order ids are such). *)
Fixpoint py_repr (v : pyval) : string :=
  match v with
  | PStr s => "'" ++ s ++ "'"
  | PList items => "[" ++ str_join ", " (map py_repr items) ++ "]"
  | PDict fields =>
      "{" ++ str_join ", "
               (map (fun kv => "'" ++ fst kv ++ "': " ++ py_repr (snd kv)) fields)
          ++ "}"
  end.

Definition py_str (v : pyval) : string :=
  match v with
  | PStr s => s
  | _ => py_repr v
  end.

(** ** [json.dumps] *)

Definition hex_digit (n : nat) : ascii :=
  match n with
  | 0 => "0" | 1 => "1" | 2 => "2" | 3 => "3" | 4 => "4" | 5 => "5"
  | 6 => "6" | 7 => "7" | 8 => "8" | 9 => "9" | 10 => "a" | 11 => "b"
  | 12 => "c" | 13 => "d" | 14 => "e" | _ => "f"
  end%char.

(** The escape of one ASCII character inside a JSON string: the short
    escapes, [\u00XX] for the other control characters and for DEL, and
    the character itself otherwise.  The strings that the script gives
    to [json.dumps] (the identifiers of the catalogs, the order ids and
    the ISO timestamps) are ASCII; a byte above [0x7f], which belongs
    to a character that [json.dumps] would write as [\uXXXX], is left as
    it is. *)
Definition json_escape_char (c : ascii) : string :=
  let n := nat_of_ascii c in
  if Nat.eqb n 34 then "\" ++ String c ""
  else if Nat.eqb n 92 then "\\"
  else if Nat.eqb n 10 then "\n"
  else if Nat.eqb n 13 then "\r"
  else if Nat.eqb n 9 then "\t"
  else if Nat.eqb n 8 then "\b"
  else if Nat.eqb n 12 then "\f"
  else if (Nat.ltb n 32 || Nat.eqb n 127)%bool then
    "\u00" ++ String (hex_digit (n / 16)) (String (hex_digit (n mod 16)) "")
  else String c "".

Fixpoint json_escape (s : string) : string :=
  match s with
  | EmptyString => ""
  | String c rest => json_escape_char c ++ json_escape rest
  end.

Definition json_string (s : string) : string :=
  String (ascii_of_nat 34) (json_escape s ++ String (ascii_of_nat 34) "").

(** [json.dumps(v)] with the default separators [", "] and [": "]. *)
Fixpoint json_dumps (v : pyval) : string :=
  match v with
  | PStr s => json_string s
  | PList items => "[" ++ str_join ", " (map json_dumps items) ++ "]"
  | PDict fields =>
      "{" ++ str_join ", "
               (map (fun kv => json_string (fst kv) ++ ": " ++ json_dumps (snd kv))
                    fields)
          ++ "}"
  end.

(** [d[k]]; [None] stands for [KeyError]. *)
Fixpoint dict_get (fields : list (string * pyval)) (k : string) : option pyval :=
  match fields with
  | [] => None
  | (k', v) :: rest => if String.eqb k' k then Some v else dict_get rest k
  end.

Definition dict_keys (fields : list (string * pyval)) : list string :=
  map fst fields.

(** *** A reader of the texts [json.dumps] writes

    The script only writes JSON; the reader says what a consumer of the
    topic finds in a value.  It reads strings with their escapes, lists
    and objects in the layout of [json_dumps] (one space after [,] and
    [:]).  [fuel] bounds the depth of the reading. *)

Definition hex_value (c : ascii) : option nat :=
  let n := nat_of_ascii c in
  if (Nat.leb 48 n && Nat.leb n 57)%bool then Some (n - 48)%nat
  else if (Nat.leb 97 n && Nat.leb n 102)%bool then Some (n - 87)%nat
  else None.

(** The character written [\e]. *)
Definition unescape (e : ascii) : option ascii :=
  let n := nat_of_ascii e in
  if Nat.eqb n 34 then Some e
  else if Nat.eqb n 92 then Some e
  else if Nat.eqb n 110 then Some (ascii_of_nat 10)
  else if Nat.eqb n 114 then Some (ascii_of_nat 13)
  else if Nat.eqb n 116 then Some (ascii_of_nat 9)
  else if Nat.eqb n 98 then Some (ascii_of_nat 8)
  else if Nat.eqb n 102 then Some (ascii_of_nat 12)
  else None.

(** The string up to its closing quote, and the text after the quote. *)
Fixpoint read_string_body (s : string) : option (string * string) :=
  match s with
  | EmptyString => None
  | String c rest =>
      if Nat.eqb (nat_of_ascii c) 34 then Some (EmptyString, rest)
      else if Nat.eqb (nat_of_ascii c) 92 then
        match rest with
        | EmptyString => None
        | String e rest' =>
            if Nat.eqb (nat_of_ascii e) 117 then
              match rest' with
              | String h1 (String h2 (String h3 (String h4 rest''))) =>
                  match hex_value h1, hex_value h2, hex_value h3, hex_value h4 with
                  | Some O, Some O, Some a, Some b =>
                      match read_string_body rest'' with
                      | Some (x, r) =>
                          Some (String (ascii_of_nat (16 * a + b)) x, r)
                      | None => None
                      end
                  | _, _, _, _ => None
                  end
              | _ => None
              end
            else
              match unescape e with
              | Some c' =>
                  match read_string_body rest' with
                  | Some (x, r) => Some (String c' x, r)
                  | None => None
                  end
              | None => None
              end
        end
      else
        match read_string_body rest with
        | Some (x, r) => Some (String c x, r)
        | None => None
        end
  end.

(** A value; the items of a list up to its [\]]; the fields of an
    object up to its [}]. *)
Fixpoint read_value (fuel : nat) (s : string) : option (pyval * string) :=
  match fuel with
  | O => None
  | S f =>
      match s with
      | EmptyString => None
      | String c rest =>
          if Nat.eqb (nat_of_ascii c) 34 then
            match read_string_body rest with
            | Some (x, r) => Some (PStr x, r)
            | None => None
            end
          else if Ascii.eqb c "[" then
            match rest with
            | EmptyString => None
            | String c' r =>
                if Ascii.eqb c' "]" then Some (PList [], r)
                else
                  match read_items f rest with
                  | Some (l, r') => Some (PList l, r')
                  | None => None
                  end
            end
          else if Ascii.eqb c "{" then
            match rest with
            | EmptyString => None
            | String c' r =>
                if Ascii.eqb c' "}" then Some (PDict [], r)
                else
                  match read_fields f rest with
                  | Some (l, r') => Some (PDict l, r')
                  | None => None
                  end
            end
          else None
      end
  end
with read_items (fuel : nat) (s : string) : option (list pyval * string) :=
  match fuel with
  | O => None
  | S f =>
      match read_value f s with
      | Some (v, String "]" r) => Some ([v], r)
      | Some (v, String "," (String " " r)) =>
          match read_items f r with
          | Some (l, r') => Some (v :: l, r')
          | None => None
          end
      | _ => None
      end
  end
with read_fields (fuel : nat) (s : string)
  : option (list (string * pyval) * string) :=
  match fuel with
  | O => None
  | S f =>
      match s with
      | String c rest =>
          if Nat.eqb (nat_of_ascii c) 34 then
            match read_string_body rest with
            | Some (k, String ":" (String " " r)) =>
                match read_value f r with
                | Some (v, String "}" r') => Some ([(k, v)], r')
                | Some (v, String "," (String " " r')) =>
                    match read_fields f r' with
                    | Some (l, r'') => Some ((k, v) :: l, r'')
                    | None => None
                    end
                | _ => None
                end
            | _ => None
            end
          else None
      | EmptyString => None
      end
  end.

(** The fuel that reading a value back takes. *)
Fixpoint need (v : pyval) : nat :=
  match v with
  | PStr _ => 1
  | PList items =>
      S ((fix go (l : list pyval) : nat :=
            match l with
            | [] => O
            | x :: r => S (Nat.max (need x) (go r))
            end) items)
  | PDict fields =>
      S ((fix go (l : list (string * pyval)) : nat :=
            match l with
            | [] => O
            | kv :: r => S (Nat.max (need (snd kv)) (go r))
            end) fields)
  end.

Fixpoint needs_items (l : list pyval) : nat :=
  match l with
  | [] => O
  | x :: r => S (Nat.max (need x) (needs_items r))
  end.

Fixpoint needs_fields (l : list (string * pyval)) : nat :=
  match l with
  | [] => O
  | kv :: r => S (Nat.max (need (snd kv)) (needs_fields r))
  end.

(** The text of one field of an object. *)
Definition field_text (kv : string * pyval) : string :=
  json_string (fst kv) ++ ": " ++ json_dumps (snd kv).

(** [b.decode('utf-8')] *)
Definition decode_utf8 (b : bytes) : string := string_of_list_byte b.

(** [json.loads(s)], given enough fuel. *)
Definition json_loads (fuel : nat) (s : string) : option pyval :=
  match read_value fuel s with
  | Some (v, EmptyString) => Some v
  | _ => None
  end.

(** ** The world, the state and the monad *)

Inductive outcome (A : Type) : Type :=
| Returned (a : A)
| Raised (e : exn).
Arguments Returned {A} a.
Arguments Raised {A} e.

(** The calls the script makes to the producer, the clock's [sleep] and
    the console, as they appear in the trace of a run. *)
Inductive event : Type :=
| Connect (bootstrap_servers : list string)
| Send (topic_name : string) (key : option bytes) (value : bytes)
| Get (future : nat) (timeout : Z)
| Sleep (seconds : float)
| Close
| Print (line : string).

(** What [parse_args] returns: the values of the two options. *)
Record namespace : Type := mk_namespace { count : Z; delay : float }.

(** The answers of the collaborators during one run.  The [k]-th call
    of a kind is answered by the entry [k] (from 0).
    - [time_ms k] is [int(time.time() * 1000)] at the [k]-th reading of
      the clock;
    - [rand_raw k] is the [k]-th draw of the generator, reduced by
      [randbelow] to the range asked for;
    - [now_iso k] is [datetime.now().isoformat()];
    - [connect_raises], [send_raises] and [close_raises] tell whether
      the call raises instead of returning;
    - [sleep_raises k] tells whether the [k]-th pause, once [time.sleep]
      has accepted its argument, is ended by an exception (an interrupt,
      say);
    - [delivery k] is what waiting on the [k]-th future gives;
    - [float_str] and [float_of_str] are [str(x)] and [float(s)] on
      floats ([None] stands for [ValueError]);
    - [other_command_lines argv defaults] is what [argparse] makes of a
      command line that [parse_args_from], below, does not spell out. *)
Record world : Type := mk_world
  { time_ms : nat -> Z;
    rand_raw : nat -> nat;
    now_iso : nat -> string;
    connect_raises : option exn;
    send_raises : nat -> option exn;
    delivery : nat -> outcome record_metadata;
    sleep_raises : nat -> option exn;
    close_raises : option exn;
    float_str : float -> string;
    float_of_str : string -> option float;
    other_command_lines : list string -> namespace -> outcome namespace }.

(** How many calls of each kind were made so far, and the trace. *)
Record state : Type := mk_state
  { clock_reads : nat;
    draws : nat;
    now_reads : nat;
    submits : nat;
    naps : nat;
    trace : list event }.

Definition init_state : state := mk_state 0 0 0 0 0 [].

Definition py (A : Type) : Type := world -> state -> outcome A * state.

Definition ret {A : Type} (a : A) : py A := fun _ s => (Returned a, s).

Definition raise {A : Type} (e : exn) : py A := fun _ s => (Raised e, s).

Definition bind {A B : Type} (m : py A) (k : A -> py B) : py B :=
  fun w s =>
    match m w s with
    | (Returned a, s') => k a w s'
    | (Raised e, s') => (Raised e, s')
    end.

Declare Scope py_scope.
Delimit Scope py_scope with py.
Notation "x <- m ;; k" := (bind m (fun x => k))
  (at level 100, m at next level, right associativity) : py_scope.
Notation "' p <- m ;; k" := (bind m (fun p => k))
  (at level 100, p pattern, m at next level, right associativity) : py_scope.
Notation "m ;; k" := (bind m (fun _ => k))
  (at level 100, right associativity) : py_scope.
Open Scope py_scope.

(** [try: body except E as e: handler e], where [catches e] is
    [isinstance(e, E)]. *)
Definition try_except {A : Type} (body : py A) (catches : exn -> bool)
    (handler : exn -> py A) : py A :=
  fun w s =>
    match body w s with
    | (Returned a, s') => (Returned a, s')
    | (Raised e, s') => if catches e then handler e w s' else (Raised e, s')
    end.

(** [for x in xs: body x] *)
Fixpoint for_each {A : Type} (xs : list A) (body : A -> py unit) : py unit :=
  match xs with
  | [] => ret tt
  | x :: rest => body x ;; for_each rest body
  end.

(** [range(n)] *)
Definition range (n : Z) : list Z := map Z.of_nat (seq 0 (Z.to_nat n)).

Definition log (e : event) (s : state) : state :=
  mk_state (clock_reads s) (draws s) (now_reads s) (submits s) (naps s)
           (trace s ++ [e]).

Definition answer (r : option exn) : outcome unit :=
  match r with
  | None => Returned tt
  | Some e => Raised e
  end.

(** ** The collaborators *)

(** [print(line)].  The console is taken to accept every line (a
    standard output that is open and encodes in UTF-8): [print] always
    returns. *)
Definition print (line : string) : py unit :=
  fun _ s => (Returned tt, log (Print line) s).

(** [int(time.time() * 1000)] *)
Definition time_time_ms : py Z :=
  fun w s =>
    (Returned (time_ms w (clock_reads s)),
     mk_state (S (clock_reads s)) (draws s) (now_reads s) (submits s) (naps s)
              (trace s)).

(** [datetime.now().isoformat()] *)
Definition datetime_now_isoformat : py string :=
  fun w s =>
    (Returned (now_iso w (now_reads s)),
     mk_state (clock_reads s) (draws s) (S (now_reads s)) (submits s) (naps s)
              (trace s)).

(** What [time.sleep] makes of its argument before it sleeps (CPython
    3.11, [time_sleep] and [_PyTime_FromSecondsObject]): a NaN is a
    [ValueError]; the number of nanoseconds, [seconds * 1e9], has to fit
    a signed 64-bit integer, or else it is an [OverflowError]; a negative
    length is a [ValueError].  Minus zero is a length of zero.  (The
    product [2^63] itself, whose conversion to a C integer is undefined,
    is counted as out of range.) *)
Definition sleep_refusal (seconds : float) : option exn :=
  let ns := (seconds * 1000000000)%float in
  if PrimFloat.is_nan seconds then
    Some (OtherException "Invalid value NaN (not a number)")
  else if negb ((-9223372036854775808 <=? ns)%float
                && (ns <? 9223372036854775808)%float) then
    Some (OtherException "timestamp too large to convert to C _PyTime_t")
  else if (ns <? 0)%float then
    Some (OtherException "sleep length must be non-negative")
  else None.

(** What the [k]-th call of [time.sleep], with the argument [seconds],
    raises: what [sleep] itself refuses, and otherwise the world's
    answer (an interrupt, an [OSError] of the system call). *)
Definition pause_raises (w : world) (seconds : float) (k : nat) : option exn :=
  match sleep_refusal seconds with
  | Some e => Some e
  | None => sleep_raises w k
  end.

(** [time.sleep(seconds)] *)
Definition time_sleep (seconds : float) : py unit :=
  fun w s =>
    (answer (pause_raises w seconds (naps s)),
     mk_state (clock_reads s) (draws s) (now_reads s) (submits s) (S (naps s))
              (trace s ++ [Sleep seconds])).

(** *** The [random] module *)

(** [random._randbelow(n)]: a draw in [0, n). *)
Definition randbelow (n : nat) : py nat :=
  fun w s =>
    (Returned (if Nat.eqb n 0 then 0%nat else (rand_raw w (draws s) mod n)%nat),
     mk_state (clock_reads s) (S (draws s)) (now_reads s) (submits s) (naps s)
              (trace s)).

(** [random.choice(seq)] *)
Definition random_choice {A : Type} (items : list A) : py A :=
  match items with
  | [] => raise (OtherException "Cannot choose from an empty sequence")
  | _ =>
      j <- randbelow (List.length items) ;;
      match nth_error items j with
      | Some x => ret x
      | None => raise (OtherException "list index out of range")
      end
  end.

(** [random.randint(a, b)], that is [randrange(a, b + 1)]. *)
Definition random_randint (a b : Z) : py Z :=
  let width := (b + 1 - a)%Z in
  if (0 <? width)%Z then
    j <- randbelow (Z.to_nat width) ;;
    ret (a + Z.of_nat j)%Z
  else raise (OtherException "empty range for randrange()").

(** [l[j] = x] on a list *)
Fixpoint list_set {A : Type} (l : list A) (j : nat) (x : A) : list A :=
  match l, j with
  | [], _ => []
  | _ :: rest, O => x :: rest
  | y :: rest, S j' => y :: list_set rest j' x
  end.

(** The selection loop of [random.sample] over a copy [pool] of the
    population ([n] is its length): for each [i], a position [j] below
    [n - i] is drawn, [pool[j]] is taken and the slot is refilled with
    [pool[n - i - 1]]. *)
Fixpoint sample_loop {A : Type} (n : nat) (pool : list A) (indices : list nat)
  : py (list A) :=
  match indices with
  | [] => ret []
  | i :: rest =>
      j <- randbelow (n - i) ;;
      match nth_error pool j, nth_error pool (n - i - 1) with
      | Some x, Some y =>
          result <- sample_loop n (list_set pool j y) rest ;;
          ret (x :: result)
      | _, _ => raise (OtherException "list index out of range")
      end
  end.

(** [random.sample(population, k)], for a population of at most 21
    entries (larger ones take [sample]'s second, set-based, branch). *)
Definition random_sample {A : Type} (population : list A) (k : Z) : py (list A) :=
  let n := List.length population in
  if ((0 <=? k)%Z && (k <=? Z.of_nat n)%Z)%bool then
    sample_loop n population (seq 0 (Z.to_nat k))
  else raise (OtherException "Sample larger than population or is negative").

(** *** The Kafka producer *)

Record KafkaProducer : Type := mk_producer
  { bootstrap_servers : list string;
    value_serializer : pyval -> bytes;
    key_serializer : string -> option bytes }.

(** [KafkaProducer(bootstrap_servers=..., value_serializer=...,
    key_serializer=...)] *)
Definition new_KafkaProducer (servers : list string)
    (value_ser : pyval -> bytes) (key_ser : string -> option bytes)
  : py KafkaProducer :=
  fun w s =>
    (match connect_raises w with
     | None => Returned (mk_producer servers value_ser key_ser)
     | Some e => Raised e
     end,
     log (Connect servers) s).

(** [producer.send(topic=..., key=..., value=...)]: the key and the value
    go through the serializers of the producer; the result is the future
    of this submission, named by the rank of the call. *)
Definition producer_send (producer : KafkaProducer) (topic_name : string)
    (key : string) (value : pyval) : py nat :=
  fun w s =>
    (match send_raises w (submits s) with
     | None => Returned (submits s)
     | Some e => Raised e
     end,
     mk_state (clock_reads s) (draws s) (now_reads s) (S (submits s)) (naps s)
              (trace s ++ [Send topic_name (key_serializer producer key)
                                (value_serializer producer value)])).

(** [future.get(timeout=...)] *)
Definition future_get (future : nat) (timeout : Z) : py record_metadata :=
  fun w s => (delivery w future, log (Get future timeout) s).

(** [producer.close()] *)
Definition producer_close (producer : KafkaProducer) : py unit :=
  fun w s => (answer (close_raises w), log Close s).

(** [d[k]] as an expression *)
Definition subscript (d : list (string * pyval)) (k : string) : py pyval :=
  match dict_get d k with
  | Some v => ret v
  | None => raise (OtherException ("'" ++ k ++ "'"))
  end.

(** ** The script *)

Definition KAFKA_BOOTSTRAP_SERVERS : list string := ["localhost:9092"].
Definition TOPIC_NAME : string := "orders".

Definition CUSTOMER_IDS : list string :=
  ["customer-001"; "customer-002"; "customer-003"; "customer-004"; "customer-005"].

Definition PRODUCT_IDS : list string :=
  ["product-001"; "product-002"; "product-003"; "product-004"; "product-005"].

Definition create_order_message : py (string * list (string * pyval)) :=
  ms <- time_time_ms ;;
  let order_id := "order-" ++ str_int ms in
  customer_id <- random_choice CUSTOMER_IDS ;;
  num_products <- random_randint 1 3 ;;
  product_ids <- random_sample PRODUCT_IDS num_products ;;
  timestamp <- datetime_now_isoformat ;;
  let message :=
    [ ("orderId", PStr order_id);
      ("customerId", PStr customer_id);
      ("productIds", PList (map PStr product_ids));
      ("timestamp", PStr timestamp) ] in
  ret (order_id, message).

(** The two lambdas given to the producer. *)
Definition send_value_serializer (v : pyval) : bytes :=
  encode_utf8 (json_dumps v).

Definition send_key_serializer (k : string) : option bytes :=
  match k with
  | EmptyString => None
  | _ => Some (encode_utf8 k)
  end.

Definition success_line (i num_messages : Z) : string :=
  "✅ Message " ++ str_int (i + 1) ++ "/" ++ str_int num_messages
    ++ " sent successfully:".

Definition failure_line (i : Z) (e : exn) : string :=
  "❌ Failed to send message " ++ str_int (i + 1) ++ ": " ++ exn_str e.

(** The body of the [for] loop of [send_messages]. *)
Definition send_one (producer : KafkaProducer) (num_messages : Z)
    (delay_seconds : float) (i : Z) : py unit :=
  ' (order_id, message) <- create_order_message ;;
  future <- producer_send producer TOPIC_NAME order_id (PDict message) ;;
  try_except
    (record_metadata <- future_get future 10 ;;
     print (success_line i num_messages) ;;
     print ("   Order ID: " ++ order_id) ;;
     customer <- subscript message "customerId" ;;
     print ("   Customer: " ++ py_str customer) ;;
     products <- subscript message "productIds" ;;
     print ("   Products: " ++ py_str products) ;;
     print ("   Topic: " ++ topic record_metadata) ;;
     print ("   Partition: " ++ str_int (partition record_metadata)) ;;
     print ("   Offset: " ++ str_int (offset record_metadata)) ;;
     print "")
    is_KafkaError
    (fun e => print (failure_line i e)) ;;
  if (i <? num_messages - 1)%Z then time_sleep delay_seconds else ret tt.

(** [send_messages(num_messages, delay_seconds)]; [main] always gives
    both arguments. *)
Definition send_messages (num_messages : Z) (delay_seconds : float) : py unit :=
  fun w =>
   (producer <- new_KafkaProducer KAFKA_BOOTSTRAP_SERVERS
                  send_value_serializer send_key_serializer ;;
    print ("🚀 Sending " ++ str_int num_messages ++ " test messages to Kafka...") ;;
    print ("📊 Topic: " ++ TOPIC_NAME) ;;
    print ("⏱️  Delay between messages: " ++ float_str w delay_seconds
             ++ " seconds") ;;
    print (str_repeat "-" 50) ;;
    for_each (range num_messages)
             (send_one producer num_messages delay_seconds) ;;
    producer_close producer ;;
    print "✅ All messages sent!") w.

(** *** The command line *)

(** An ASCII digit. *)
Definition is_digit (c : ascii) : bool :=
  (Nat.leb 48 (nat_of_ascii c) && Nat.leb (nat_of_ascii c) 57)%bool.

Fixpoint all_digits (s : string) : bool :=
  match s with
  | EmptyString => true
  | String c rest => (is_digit c && all_digits rest)%bool
  end.

(** One digit or more. *)
Definition digits (s : string) : bool :=
  match s with
  | EmptyString => false
  | String _ _ => all_digits s
  end.

(** Digits, if any, a point, and one digit or more. *)
Fixpoint point_digits (s : string) : bool :=
  match s with
  | EmptyString => false
  | String c rest =>
      if Ascii.eqb c "." then digits rest
      else (is_digit c && point_digits rest)%bool
  end.

(** [argparse]'s [_negative_number_matcher]: [-\d+] or [-\d*\.\d+]. *)
Definition negative_number (s : string) : bool :=
  match s with
  | EmptyString => false
  | String c rest => (Ascii.eqb c "-" && (digits rest || point_digits rest))%bool
  end.

(** What [argparse] takes for the value of an option, and not for
    another option: an argument that is empty, or does not begin with
    [-], or looks like a negative number (the parser has no option that
    looks like one). *)
Definition plain_argument (s : string) : bool :=
  match s with
  | EmptyString => true
  | String c _ => (negb (Ascii.eqb c "-") || negative_number s)%bool
  end.

(** A string that [int] refuses whatever else it holds: one with a
    letter or a point in it. *)
Definition is_letter_or_point (c : ascii) : bool :=
  let n := nat_of_ascii c in
  ((Nat.leb 65 n && Nat.leb n 90) || (Nat.leb 97 n && Nat.leb n 122)
   || Nat.eqb n 46)%bool.

Fixpoint has_letter_or_point (s : string) : bool :=
  match s with
  | EmptyString => false
  | String c rest => (is_letter_or_point c || has_letter_or_point rest)%bool
  end.

(** The command lines made of the two options written out in full, each
    followed by its value: [--count v] and [--delay v], in any order and
    number. *)
Fixpoint option_pairs (argv : list string) : bool :=
  match argv with
  | [] => true
  | flag :: v :: rest =>
      ((String.eqb flag "--count" || String.eqb flag "--delay")
       && plain_argument v && option_pairs rest)%bool
  | _ => false
  end.

(** The values of such a command line, converted from left to right by
    [int] and [float]; a later value of an option replaces an earlier
    one, and the first value whose conversion fails ends the parsing in
    [SystemExit(2)].  [int(v)] is spelt out for the decimal literals of
    at most 640 characters (longer ones can meet the limit that Python
    sets on such conversions) and for the strings it refuses for a
    letter or a point; [float(v)] is the world's.  [None]: the command
    line is left to the world. *)
Fixpoint convert_pairs (w : world) (argv : list string) (ns : namespace)
  : option (outcome namespace) :=
  match argv with
  | [] => Some (Returned ns)
  | flag :: v :: rest =>
      if String.eqb flag "--count" then
        match int_of_str v with
        | Some n =>
            if Nat.leb (String.length v) 640
            then convert_pairs w rest (mk_namespace n (delay ns))
            else None
        | None =>
            if has_letter_or_point v then Some (Raised (SystemExit 2))
            else None
        end
      else if String.eqb flag "--delay" then
        match float_of_str w v with
        | Some d => convert_pairs w rest (mk_namespace (count ns) d)
        | None => Some (Raised (SystemExit 2))
        end
      else None
  | _ => None
  end.

(** [parser.parse_args()] on the arguments after the program name,
    starting from the defaults [ns]: the command lines above are spelt
    out; what [argparse] makes of any other (abbreviated options,
    [--count=3], [--help], values that [int] reads but that are no plain
    literals, and so on) is the answer of the world.  What [argparse]
    itself writes (the usage, the help, its error messages) is not part
    of the trace. *)
Definition parse_args_from (w : world) (argv : list string) (ns : namespace)
  : outcome namespace :=
  if option_pairs argv then
    match convert_pairs w argv ns with
    | Some r => r
    | None => other_command_lines w argv ns
    end
  else other_command_lines w argv ns.

(** The defaults of the two [add_argument] calls. *)
Definition default_namespace : namespace := mk_namespace 10 2%float.

Definition parse_args (argv : list string) : py namespace :=
  fun w s => (parse_args_from w argv default_namespace, s).

Definition interrupted_line : string :=
  String (ascii_of_nat 10) "⏹️  Interrupted by user".

Definition is_KeyboardInterrupt (e : exn) : bool :=
  match e with KeyboardInterrupt => true | _ => false end.

Definition main (argv : list string) : py unit :=
  args <- parse_args argv ;;
  try_except
    (send_messages (count args) (delay args))
    (fun e => (is_KeyboardInterrupt e || is_Exception e)%bool)
    (fun e =>
       if is_KeyboardInterrupt e then print interrupted_line
       else print ("❌ Error: " ++ exn_str e)).

(** ** Vocabulary of the properties *)

(** *** The pieces of a trace *)

(** The state after some draws of the generator: nothing else moved. *)
Definition with_draws (s : state) (d : nat) : state :=
  mk_state (clock_reads s) d (now_reads s) (submits s) (naps s) (trace s).

(** The state after the events [es]. *)
Definition logs (es : list event) (s : state) : state :=
  mk_state (clock_reads s) (draws s) (now_reads s) (submits s) (naps s)
           (trace s ++ es).

(** The dict built for an order. *)
Definition order_fields (order_id customer_id : string)
    (product_ids : list string) (timestamp : string) : list (string * pyval) :=
  [ ("orderId", PStr order_id);
    ("customerId", PStr customer_id);
    ("productIds", PList (map PStr product_ids));
    ("timestamp", PStr timestamp) ].

(** The order id read at clock reading [k]. *)
Definition order_id_at (w : world) (k : nat) : string :=
  "order-" ++ str_int (time_ms w k).

(** The producer that [send_messages] builds. *)
Definition the_producer : KafkaProducer :=
  mk_producer KAFKA_BOOTSTRAP_SERVERS send_value_serializer send_key_serializer.

(** The publish call of an order built at clock reading [k] with the
    [n]-th timestamp. *)
Definition sent (w : world) (k n : nat) (customer_id : string)
    (product_ids : list string) : event :=
  Send TOPIC_NAME
       (send_key_serializer (order_id_at w k))
       (send_value_serializer
          (PDict (order_fields (order_id_at w k) customer_id product_ids
                               (now_iso w n)))).

(** The lines printed after a confirmed delivery. *)
Definition success_report (i num_messages : Z) (order_id customer_id : string)
    (product_ids : list string) (md : record_metadata) : list event :=
  [ Print (success_line i num_messages);
    Print ("   Order ID: " ++ order_id);
    Print ("   Customer: " ++ customer_id);
    Print ("   Products: " ++ py_repr (PList (map PStr product_ids)));
    Print ("   Topic: " ++ topic md);
    Print ("   Partition: " ++ str_int (partition md));
    Print ("   Offset: " ++ str_int (offset md));
    Print "" ].

(** The wait on the future [fut] and what is printed about it. *)
Definition attempt_events (w : world) (num_messages i : Z) (fut : nat)
    (order_id customer_id : string) (product_ids : list string) : list event :=
  Get fut 10 ::
  match delivery w fut with
  | Returned md =>
      success_report i num_messages order_id customer_id product_ids md
  | Raised e => if is_KafkaError e then [Print (failure_line i e)] else []
  end.

(** The exception of the wait that the handler of the loop lets through. *)
Definition escapes (w : world) (fut : nat) : option exn :=
  match delivery w fut with
  | Returned _ => None
  | Raised e => if is_KafkaError e then None else Some e
  end.

(** The pause after turn [k], when there is one. *)
Definition pause_events (num_messages : Z) (delay_seconds : float) (k : nat)
  : list event :=
  if (Z.of_nat k <? num_messages - 1)%Z then [Sleep delay_seconds] else [].

(** The last line of a complete run, and the line of [main] for an error. *)
Definition all_sent_line : string := "✅ All messages sent!".

Definition error_line (e : exn) : string := "❌ Error: " ++ exn_str e.

(** The state after the producer was created and the banner printed. *)
Definition banner (w : world) (num_messages : Z) (delay_seconds : float)
  : list event :=
  [ Connect KAFKA_BOOTSTRAP_SERVERS;
    Print ("🚀 Sending " ++ str_int num_messages ++ " test messages to Kafka...");
    Print ("📊 Topic: " ++ TOPIC_NAME);
    Print ("⏱️  Delay between messages: " ++ float_str w delay_seconds
             ++ " seconds");
    Print (str_repeat "-" 50) ].

(** What the builder chose for an order: the customer and the products. *)
Definition choice : Type := (string * list string)%type.

(** What [create_order_message] guarantees of its choice. *)
Definition valid_choice (o : choice) : Prop :=
  In (fst o) CUSTOMER_IDS
  /\ (1 <= List.length (snd o) <= 3)%nat
  /\ NoDup (snd o)
  /\ incl (snd o) PRODUCT_IDS.

(** The events of the quiet turn [k] that built the order [o]. *)
Definition turn_events (w : world) (num_messages : Z) (delay_seconds : float)
    (k : nat) (o : choice) : list event :=
  sent w k k (fst o) (snd o)
  :: attempt_events w num_messages (Z.of_nat k) k (order_id_at w k)
       (fst o) (snd o)
  ++ pause_events num_messages delay_seconds k.

(** The events of the quiet turns [k], [k + 1], ... that built [os]. *)
Fixpoint turns (w : world) (num_messages : Z) (delay_seconds : float)
    (k : nat) (os : list choice) : list event :=
  match os with
  | [] => []
  | o :: rest =>
      turn_events w num_messages delay_seconds k o
      ++ turns w num_messages delay_seconds (S k) rest
  end.

(** *** Quiet turns and turns that raise *)

Definition is_none {A : Type} (o : option A) : bool :=
  match o with None => true | Some _ => false end.

(** Turn [k] of a run of [num_messages] turns is quiet when its publish
    call returns, its wait returns or raises a delivery error, and its
    pause of [delay_seconds], when there is one, returns: [time.sleep]
    accepts the delay and nothing ends the pause. *)
Definition quiet (w : world) (num_messages : Z) (delay_seconds : float)
    (k : nat) : bool :=
  is_none (send_raises w k)
  && is_none (escapes w k)
  && (if (Z.of_nat k <? num_messages - 1)%Z
      then is_none (pause_raises w delay_seconds k)
      else true).

(** The first [n] turns are quiet. *)
Definition calm (w : world) (num_messages : Z) (delay_seconds : float)
    (n : nat) : bool :=
  forallb (quiet w num_messages delay_seconds) (seq 0 n).

(** How turn [k] ends when a call of it raises [e]: the number of pauses
    started so far and the events of the turn up to the call. *)
Inductive stopped (w : world) (num_messages : Z) (delay_seconds : float)
    (k : nat) (o : choice) : exn -> nat -> list event -> Prop :=
| stopped_send (e : exn) :
    send_raises w k = Some e ->
    stopped w num_messages delay_seconds k o e k [sent w k k (fst o) (snd o)]
| stopped_wait (e : exn) :
    send_raises w k = None ->
    delivery w k = Raised e -> is_KafkaError e = false ->
    stopped w num_messages delay_seconds k o e k
            [sent w k k (fst o) (snd o); Get k 10]
| stopped_sleep (e : exn) :
    send_raises w k = None ->
    escapes w k = None ->
    (Z.of_nat k < num_messages - 1)%Z ->
    pause_raises w delay_seconds k = Some e ->
    stopped w num_messages delay_seconds k o e (S k)
            (turn_events w num_messages delay_seconds k o).

(** The state at the head of the loop after [i] quiet turns. *)
Definition after_turns (w : world) (num_messages : Z) (delay_seconds : float)
    (i : nat) (s : state) : Prop :=
  calm w num_messages delay_seconds i = true
  /\ exists os d,
       List.length os = i
       /\ Forall valid_choice os
       /\ s = mk_state i d i i (Nat.min i (Z.to_nat num_messages - 1))
                       (banner w num_messages delay_seconds
                        ++ turns w num_messages delay_seconds 0 os).

(** The state in which the loop is left by an exception. *)
Definition cut_short (w : world) (num_messages : Z) (delay_seconds : float)
    (e : exn) (s : state) : Prop :=
  exists k os o d pauses evs,
    (Z.of_nat k < num_messages)%Z
    /\ calm w num_messages delay_seconds k = true
    /\ List.length os = k
    /\ Forall valid_choice os /\ valid_choice o
    /\ stopped w num_messages delay_seconds k o e pauses evs
    /\ s = mk_state (S k) d (S k) (S k) pauses
                    (banner w num_messages delay_seconds
                     ++ turns w num_messages delay_seconds 0 os ++ evs).

(** *** Projections of a trace *)

(** The publish calls of a trace: topic, key and value of each. *)
Definition sends (tr : list event) : list (string * option bytes * bytes) :=
  flat_map (fun e => match e with
                     | Send t k v => [(t, k, v)]
                     | _ => []
                     end) tr.

Definition publish_calls (tr : list event) : nat := List.length (sends tr).

(** The keys of the publish calls of a trace. *)
Definition sent_keys (tr : list event) : list (option bytes) :=
  map (fun x => snd (fst x)) (sends tr).

(** The publish call of turn [k] for the order [o]. *)
Definition publish_of (w : world) (k : nat) (o : choice)
  : string * option bytes * bytes :=
  (TOPIC_NAME,
   send_key_serializer (order_id_at w k),
   send_value_serializer
     (PDict (order_fields (order_id_at w k) (fst o) (snd o) (now_iso w k)))).

Fixpoint publishes (w : world) (k : nat) (os : list choice)
  : list (string * option bytes * bytes) :=
  match os with
  | [] => []
  | o :: rest => publish_of w k o :: publishes w (S k) rest
  end.

(** The wire form of an Order Event: the topic; as the key the bytes of
    the order id; as the value the bytes of a JSON text that reads back
    as an object with exactly the four fields, in which [orderId] is the
    order id of the key. *)
Definition order_event_wire (x : string * option bytes * bytes) : Prop :=
  exists order_id customer_id product_ids timestamp,
    let fields := order_fields order_id customer_id product_ids timestamp in
    x = (TOPIC_NAME, Some (encode_utf8 order_id),
         encode_utf8 (json_dumps (PDict fields)))
    /\ (exists fuel, json_loads fuel (decode_utf8 (snd x)) = Some (PDict fields))
    /\ dict_keys fields = ["orderId"; "customerId"; "productIds"; "timestamp"]
    /\ dict_get fields "orderId" = Some (PStr order_id)
    /\ In customer_id CUSTOMER_IDS
    /\ incl product_ids PRODUCT_IDS.

(** The publish calls and the pauses of a trace, in order. *)
Inductive step : Type :=
| Publish
| Pause (seconds : float).

Definition pacing (tr : list event) : list step :=
  flat_map (fun e => match e with
                     | Send _ _ _ => [Publish]
                     | Sleep d => [Pause d]
                     | _ => []
                     end) tr.

(** What a turn adds to the pacing: its publish call and its pause. *)
Definition turn_pacing (num_messages : Z) (delay_seconds : float) (k : nat)
  : list step :=
  Publish :: if (Z.of_nat k <? num_messages - 1)%Z
             then [Pause delay_seconds] else [].

Definition is_Pause (x : step) : bool :=
  match x with Pause _ => true | Publish => false end.

Definition sleep_calls (tr : list event) : nat :=
  List.length (filter is_Pause (pacing tr)).

(** [n] publish calls with a pause of [d] seconds between two of them. *)
Definition paced (d : float) (n : nat) : list step :=
  match n with
  | O => []
  | S m => (List.concat (repeat [Publish; Pause d] m) ++ [Publish])%list
  end.

(** [s.startswith(p)] *)
Fixpoint starts_with (p s : string) : bool :=
  match p with
  | EmptyString => true
  | String a p' =>
      match s with
      | EmptyString => false
      | String b s' => if Ascii.eqb a b then starts_with p' s' else false
      end
  end.

(** The first line of each report of the loop, success or failure. *)
Definition is_headline (line : string) : bool :=
  (starts_with "✅ Message " line
   || starts_with "❌ Failed to send message " line)%bool.

Definition headlines (tr : list event) : list string :=
  flat_map (fun e => match e with
                     | Print line => if is_headline line then [line] else []
                     | _ => []
                     end) tr.

(** The headline that turn [k] prints when it is quiet. *)
Definition headline (w : world) (num_messages : Z) (k : nat) : string :=
  match delivery w k with
  | Returned _ => success_line (Z.of_nat k) num_messages
  | Raised e => failure_line (Z.of_nat k) e
  end.

(** The lines written on the console. *)
Definition console (tr : list event) : list string :=
  flat_map (fun e => match e with
                     | Print line => [line]
                     | _ => []
                     end) tr.

(** The waits of a trace: the future and the timeout of each. *)
Definition waits (tr : list event) : list (nat * Z) :=
  flat_map (fun e => match e with
                     | Get future timeout => [(future, timeout)]
                     | _ => []
                     end) tr.

(** The three ways a call of [send_messages] in a fresh process ends:
    the producer cannot be created; every turn is quiet and the
    producer is closed; a turn raises. *)
Inductive run_end (w : world) (num_messages : Z) (delay_seconds : float)
  : outcome unit * state -> Prop :=
| end_unconnected (e : exn) :
    connect_raises w = Some e ->
    run_end w num_messages delay_seconds
      (Raised e, logs [Connect KAFKA_BOOTSTRAP_SERVERS] init_state)
| end_complete (os : list choice) (d : nat) :
    connect_raises w = None ->
    calm w num_messages delay_seconds (Z.to_nat num_messages) = true ->
    List.length os = Z.to_nat num_messages ->
    Forall valid_choice os ->
    run_end w num_messages delay_seconds
      (answer (close_raises w),
       mk_state (Z.to_nat num_messages) d (Z.to_nat num_messages)
         (Z.to_nat num_messages)
         (Nat.min (Z.to_nat num_messages) (Z.to_nat num_messages - 1))
         (banner w num_messages delay_seconds
          ++ turns w num_messages delay_seconds 0 os
          ++ Close :: if is_none (close_raises w)
                      then [Print all_sent_line] else []))
| end_cut (k : nat) (os : list choice) (o : choice) (d : nat) (e : exn)
    (pauses : nat) (evs : list event) :
    connect_raises w = None ->
    (Z.of_nat k < num_messages)%Z ->
    calm w num_messages delay_seconds k = true ->
    List.length os = k ->
    Forall valid_choice os ->
    valid_choice o ->
    stopped w num_messages delay_seconds k o e pauses evs ->
    run_end w num_messages delay_seconds
      (Raised e,
       mk_state (S k) d (S k) (S k) pauses
         (banner w num_messages delay_seconds
          ++ turns w num_messages delay_seconds 0 os ++ evs)).

(** What the handlers of [main] print for the way [send_messages]
    ended, and how [main] ends then. *)
Definition last_words (r : outcome unit) : list string :=
  match r with
  | Returned _ => []
  | Raised e =>
      if is_KeyboardInterrupt e then [interrupted_line]
      else if is_Exception e then [error_line e]
      else []
  end.

Definition main_end (r : outcome unit) : outcome unit :=
  match r with
  | Returned u => Returned u
  | Raised e =>
      if (is_KeyboardInterrupt e || is_Exception e)%bool then Returned tt
      else Raised e
  end.

(** The events of a message that is published and confirmed: the
    publish call, the wait and the eight lines of the report. *)
Definition delivered_turn (w : world) (num_messages : Z) (i : nat)
    (customer_id : string) (product_ids : list string) (md : record_metadata)
  : list event :=
  [ Send TOPIC_NAME
      (Some (encode_utf8 (order_id_at w i)))
      (encode_utf8
         (json_dumps
            (PDict (order_fields (order_id_at w i) customer_id product_ids
                      (now_iso w i)))));
    Get i 10;
    Print (success_line (Z.of_nat i) num_messages);
    Print ("   Order ID: " ++ order_id_at w i);
    Print ("   Customer: " ++ customer_id);
    Print ("   Products: ["
           ++ str_join ", " (map (fun x => "'" ++ x ++ "'") product_ids)
           ++ "]");
    Print ("   Topic: " ++ topic md);
    Print ("   Partition: " ++ str_int (partition md));
    Print ("   Offset: " ++ str_int (offset md));
    Print "" ].

(** *** Generators that are played back *)

(** The first position of [x] in [l] ([List.length l] when there is
    none). *)
Fixpoint index_of (x : string) (l : list string) : nat :=
  match l with
  | [] => O
  | y :: rest => if String.eqb y x then O else S (index_of x rest)
  end.

(** The draws that make the selection loop of [random.sample], at turn
    [i] over [pool], take the entries of [p] one after the other. *)
Fixpoint sample_draws (n : nat) (pool : list string) (i : nat)
    (p : list string) : list nat :=
  match p with
  | [] => []
  | x :: rest =>
      let j := index_of x pool in
      match nth_error pool (n - i - 1) with
      | Some y => j :: sample_draws n (list_set pool j y) (S i) rest
      | None => [j]
      end
  end.

(** The draws that make the builder choose the customer [c] and the
    products [p]. *)
Definition draws_for (c : string) (p : list string) : list nat :=
  index_of c CUSTOMER_IDS
  :: (List.length p - 1)%nat
  :: sample_draws (List.length PRODUCT_IDS) PRODUCT_IDS 0 p.

(** The world [w] with a generator that gives the draws [ds] from its
    draw number [from] on. *)
Definition playing (w : world) (from : nat) (ds : list nat) : world :=
  mk_world (time_ms w) (fun t => nth (t - from) ds O) (now_iso w)
           (connect_raises w) (send_raises w) (delivery w) (sleep_raises w)
           (close_raises w) (float_str w) (float_of_str w)
           (other_command_lines w).

(** *** Sample worlds *)

(** [str(x)] and [float(s)] on the few floats the sample runs use. *)
Definition sample_float_str (x : float) : string :=
  if PrimFloat.eqb x 2 then "2.0"
  else if PrimFloat.eqb x 0.5 then "0.5"
  else if PrimFloat.eqb x (-1) then "-1.0"
  else "0.0".

Definition sample_float_of_str (s : string) : option float :=
  if String.eqb s "2.0" then Some 2%float
  else if String.eqb s "0.5" then Some 0.5%float
  else if String.eqb s "0" then Some 0%float
  else if String.eqb s "-1" then Some (-1)%float
  else None.

(** The sample runs only use command lines that [parse_args_from]
    spells out; the sample worlds refuse the others. *)
Definition sample_other_command_lines (argv : list string) (ns : namespace)
  : outcome namespace :=
  Raised (SystemExit 2).

(** A broker that confirms every message, a clock that advances by two
    seconds a turn. *)
Definition steady_world : world :=
  mk_world (fun k => 1700000000000 + 2000 * Z.of_nat k)%Z
           (fun k => (7 * k + 3)%nat)
           (fun _ => "2024-01-01T12:00:00.000001")
           None
           (fun _ => None)
           (fun k => Returned (mk_metadata "orders" 0 (Z.of_nat k)))
           (fun _ => None)
           None
           sample_float_str
           sample_float_of_str
           sample_other_command_lines.

(** The steady world, but for the answers of the producer and of
    [sleep]. *)
Definition steady_but (sending : nat -> option exn)
    (waiting : nat -> outcome record_metadata) (sleeping : nat -> option exn)
  : world :=
  mk_world (time_ms steady_world) (rand_raw steady_world)
           (now_iso steady_world) None sending waiting sleeping None
           sample_float_str sample_float_of_str
           sample_other_command_lines.

(** A stub publisher whose second delivery fails. *)
Definition stub_world : world :=
  steady_but (fun _ => None)
    (fun k => if Nat.eqb k 1
              then Raised (KafkaError "KafkaTimeoutError: Timeout after waiting for 10 secs.")
              else Returned (mk_metadata "orders" 0 (Z.of_nat k)))
    (fun _ => None).

(** A clock that does not move between two readings. *)
Definition frozen_clock_world : world :=
  mk_world (fun _ => 1700000000000%Z)
           (rand_raw steady_world) (now_iso steady_world)
           None (fun _ => None) (delivery steady_world) (fun _ => None) None
           sample_float_str sample_float_of_str
           sample_other_command_lines.

(** An operator who interrupts the first pause. *)
Definition interrupt_world : world :=
  steady_but (fun _ => None) (delivery steady_world)
    (fun k => if Nat.eqb k 0 then Some KeyboardInterrupt else None).

(** A producer whose second publish call fails before any future is
    returned. *)
Definition broken_send_world : world :=
  steady_but
    (fun k => if Nat.eqb k 1
              then Some (KafkaError
                "KafkaTimeoutError: Failed to update metadata after 60.0 secs.")
              else None)
    (delivery steady_world) (fun _ => None).

(** No broker answers when the producer is created. *)
Definition no_broker_world : world :=
  mk_world (time_ms steady_world) (rand_raw steady_world)
           (now_iso steady_world)
           (Some (KafkaError "NoBrokersAvailable"))
           (fun _ => None) (delivery steady_world) (fun _ => None) None
           sample_float_str sample_float_of_str
           sample_other_command_lines.

(** Closing the producer times out. *)
Definition failing_close_world : world :=
  mk_world (time_ms steady_world) (rand_raw steady_world)
           (now_iso steady_world)
           None (fun _ => None) (delivery steady_world) (fun _ => None)
           (Some (KafkaError "KafkaTimeoutError: Failed to flush"))
           sample_float_str sample_float_of_str
           sample_other_command_lines.

(** * Properties *)

(** ** Sample runs *)

Example first_order :
  fst (create_order_message steady_world init_state)
  = Returned ("order-1700000000000",
              order_fields "order-1700000000000" "customer-004"
                ["product-003"; "product-001"] "2024-01-01T12:00:00.000001").
Proof. reflexivity. Qed.

Example stub_run_console :
  console (trace (snd (main ["--count"; "3"; "--delay"; "0.5"]
                            stub_world init_state)))
  = [ "🚀 Sending 3 test messages to Kafka...";
      "📊 Topic: orders";
      "⏱️  Delay between messages: 0.5 seconds";
      "--------------------------------------------------";
      "✅ Message 1/3 sent successfully:";
      "   Order ID: order-1700000000000";
      "   Customer: customer-004";
      "   Products: ['product-003', 'product-001']";
      "   Topic: orders";
      "   Partition: 0";
      "   Offset: 0";
      "";
      "❌ Failed to send message 2: KafkaTimeoutError: Timeout after waiting for 10 secs.";
      "✅ Message 3/3 sent successfully:";
      "   Order ID: order-1700000004000";
      "   Customer: customer-002";
      "   Products: ['product-001', 'product-004']";
      "   Topic: orders";
      "   Partition: 0";
      "   Offset: 2";
      "";
      "✅ All messages sent!" ].
Proof. vm_compute. reflexivity. Qed.

Example stub_run_pacing :
  pacing (trace (snd (main ["--count"; "3"; "--delay"; "0.5"]
                           stub_world init_state)))
  = [Publish; Pause 0.5; Publish; Pause 0.5; Publish].
Proof. vm_compute. reflexivity. Qed.

Example broken_send_console :
  console (trace (snd (main ["--count"; "3"] broken_send_world init_state)))
  = [ "🚀 Sending 3 test messages to Kafka...";
      "📊 Topic: orders";
      "⏱️  Delay between messages: 2.0 seconds";
      "--------------------------------------------------";
      "✅ Message 1/3 sent successfully:";
      "   Order ID: order-1700000000000";
      "   Customer: customer-004";
      "   Products: ['product-003', 'product-001']";
      "   Topic: orders";
      "   Partition: 0";
      "   Offset: 0";
      "";
      "❌ Error: KafkaTimeoutError: Failed to update metadata after 60.0 secs." ].
Proof. vm_compute. reflexivity. Qed.

Example refused_command_line :
  main ["--count"; "ten"] steady_world init_state
  = (Raised (SystemExit 2), init_state).
Proof. reflexivity. Qed.

(** ** Lists updated in place *)

Lemma length_list_set {A : Type} (l : list A) (j : nat) (x : A) :
  List.length (list_set l j x) = List.length l.
Proof.
  revert j; induction l as [|y l IH]; intros [|j]; simpl; auto.
Qed.

Lemma nth_error_list_set {A : Type} (l : list A) (j t : nat) (x : A) :
  (j < List.length l)%nat ->
  nth_error (list_set l j x) t = if Nat.eqb t j then Some x else nth_error l t.
Proof.
  revert j t; induction l as [|y l IH]; intros j t Hj; simpl in Hj.
  - lia.
  - destruct j as [|j], t as [|t]; simpl; auto.
    apply IH; lia.
Qed.

(** One step of the selection loop: the slots below [m - 1] of the
    refilled pool are still pairwise different, all come from the slots
    below [m] of the pool, and none is the entry just taken. *)
Lemma pool_step {A : Type} (pool : list A) (m j : nat) (x y : A) :
  (m <= List.length pool)%nat -> (j < m)%nat ->
  NoDup (firstn m pool) ->
  nth_error pool j = Some x ->
  nth_error pool (m - 1) = Some y ->
  NoDup (firstn (m - 1) (list_set pool j y))
  /\ ~ In x (firstn (m - 1) (list_set pool j y))
  /\ incl (firstn (m - 1) (list_set pool j y)) (firstn m pool)
  /\ In x (firstn m pool).
Proof.
  intros Hm Hj Hnd Hx Hy.
  assert (Hlen : List.length (firstn m pool) = m)
    by (rewrite length_firstn; lia).
  assert (Hget : forall t, (t < m)%nat ->
                           nth_error (firstn m pool) t = nth_error pool t).
  { intros t Ht. rewrite nth_error_firstn.
    destruct (Nat.ltb_spec t m); [reflexivity | lia]. }
  assert (Hinj : forall a b, (a < m)%nat -> (b < m)%nat ->
                             nth_error pool a = nth_error pool b -> a = b).
  { intros a b Ha Hb E.
    apply (proj1 (NoDup_nth_error (firstn m pool)) Hnd a b).
    - lia.
    - rewrite !Hget by assumption; exact E. }
  assert (Hnew : forall t, (t < m - 1)%nat ->
            nth_error (firstn (m - 1) (list_set pool j y)) t
            = if Nat.eqb t j then Some y else nth_error pool t).
  { intros t Ht. rewrite nth_error_firstn.
    destruct (Nat.ltb_spec t (m - 1)); [| lia].
    apply nth_error_list_set; lia. }
  assert (Hlen' : List.length (firstn (m - 1) (list_set pool j y)) = (m - 1)%nat)
    by (rewrite length_firstn, length_list_set; lia).
  repeat split.
  - apply NoDup_nth_error. intros a b Ha E.
    rewrite Hlen' in Ha.
    assert (Hb : (b < m - 1)%nat).
    { rewrite <- Hlen'. apply nth_error_Some. rewrite <- E.
      apply nth_error_Some. rewrite Hlen'. exact Ha. }
    rewrite (Hnew a Ha), (Hnew b Hb) in E.
    destruct (Nat.eqb_spec a j), (Nat.eqb_spec b j); subst; auto.
    + rewrite <- Hy in E. apply Hinj in E; lia.
    + rewrite <- Hy in E. apply Hinj in E; lia.
    + apply Hinj; auto; lia.
  - intros Hin. apply In_nth_error in Hin. destruct Hin as [t Ht].
    assert (Hlt : (t < m - 1)%nat).
    { rewrite <- Hlen'. apply nth_error_Some. congruence. }
    rewrite (Hnew t Hlt) in Ht.
    destruct (Nat.eqb_spec t j).
    + subst t. rewrite <- Hy, <- Hx in Ht. apply Hinj in Ht; lia.
    + rewrite <- Hx in Ht. apply Hinj in Ht; lia.
  - intros z Hin. apply In_nth_error in Hin. destruct Hin as [t Ht].
    assert (Hlt : (t < m - 1)%nat).
    { rewrite <- Hlen'. apply nth_error_Some. congruence. }
    rewrite (Hnew t Hlt) in Ht.
    destruct (Nat.eqb_spec t j).
    + injection Ht as <-. apply nth_error_In with (n := (m - 1)%nat).
      rewrite Hget by lia. exact Hy.
    + apply nth_error_In with (n := t). rewrite Hget by lia. exact Ht.
  - apply nth_error_In with (n := j). rewrite Hget by lia. exact Hx.
Qed.

(** ** The random module *)

Lemma randbelow_spec (n : nat) (w : world) (s : state) :
  exists j, randbelow n w s = (Returned j, with_draws s (S (draws s)))
            /\ ((0 < n)%nat -> (j < n)%nat).
Proof.
  unfold randbelow, with_draws. eexists; split; [reflexivity|].
  intros Hn. destruct (Nat.eqb_spec n 0); [lia|].
  apply Nat.mod_upper_bound; assumption.
Qed.

Lemma sample_loop_spec {A : Type} (n k : nat) :
  forall (i : nat) (pool : list A) (w : world) (s : state),
    List.length pool = n -> (i + k <= n)%nat ->
    NoDup (firstn (n - i) pool) ->
    exists res,
      sample_loop n pool (seq i k) w s
      = (Returned res, with_draws s (draws s + k))
      /\ List.length res = k /\ NoDup res
      /\ incl res (firstn (n - i) pool).
Proof.
  induction k as [|k IH]; intros i pool w s Hlen Hik Hnd.
  - exists []. simpl. unfold ret, with_draws. rewrite Nat.add_0_r.
    destruct s; simpl. repeat split; auto using NoDup_nil, incl_nil_l.
  - simpl seq. cbn [sample_loop]. unfold bind at 1.
    destruct (randbelow_spec (n - i) w s) as [j [-> Hj]].
    specialize (Hj ltac:(lia)).
    destruct (nth_error pool j) as [x|] eqn:Hx;
      [| apply nth_error_None in Hx; lia].
    destruct (nth_error pool (n - i - 1)) as [y|] eqn:Hy;
      [| apply nth_error_None in Hy; lia].
    destruct (pool_step pool (n - i) j x y) as [Hnd' [Hnotin [Hincl Hinx]]];
      try assumption; try lia.
    destruct (IH (S i) (list_set pool j y) w (with_draws s (S (draws s))))
      as [res [Hrun [Hl [Hndr Hinc]]]].
    + rewrite length_list_set; assumption.
    + lia.
    + replace (n - S i)%nat with (n - i - 1)%nat by lia. exact Hnd'.
    + replace (n - S i)%nat with (n - i - 1)%nat in Hinc by lia.
      exists (x :: res). unfold bind. rewrite Hrun. unfold ret.
      repeat split.
      * f_equal. unfold with_draws; simpl. f_equal. lia.
      * simpl; congruence.
      * constructor; auto.
      * intros z [<- | Hz]; auto.
Qed.

Lemma random_sample_spec {A : Type} (population : list A) (k : Z)
    (w : world) (s : state) :
  NoDup population -> (0 <= k <= Z.of_nat (List.length population))%Z ->
  exists res,
    random_sample population k w s
    = (Returned res, with_draws s (draws s + Z.to_nat k))
    /\ Z.of_nat (List.length res) = k /\ NoDup res /\ incl res population.
Proof.
  intros Hnd Hk. unfold random_sample.
  destruct (Z.leb_spec 0 k); [| lia].
  destruct (Z.leb_spec k (Z.of_nat (List.length population))); [| lia].
  simpl andb.
  destruct (sample_loop_spec (List.length population) (Z.to_nat k) 0
              population w s) as [res [Hrun [Hl [Hndr Hinc]]]].
  - reflexivity.
  - lia.
  - rewrite Nat.sub_0_r, firstn_all. exact Hnd.
  - rewrite Nat.sub_0_r, firstn_all in Hinc.
    exists res. repeat split; auto. lia.
Qed.

Lemma random_choice_spec {A : Type} (items : list A) (w : world) (s : state) :
  items <> [] ->
  exists x,
    random_choice items w s = (Returned x, with_draws s (S (draws s)))
    /\ In x items.
Proof.
  intros Hne. unfold random_choice.
  destruct items as [|a rest]; [congruence|].
  unfold bind.
  destruct (randbelow_spec (List.length (a :: rest)) w s) as [j [-> Hj]].
  specialize (Hj ltac:(simpl; lia)).
  destruct (nth_error (a :: rest) j) as [x|] eqn:Hx.
  - exists x. split; [reflexivity|]. eapply nth_error_In; eassumption.
  - apply nth_error_None in Hx. lia.
Qed.

Lemma random_randint_spec (a b : Z) (w : world) (s : state) :
  (a <= b)%Z ->
  exists r,
    random_randint a b w s = (Returned r, with_draws s (S (draws s)))
    /\ (a <= r <= b)%Z.
Proof.
  intros Hab. unfold random_randint.
  destruct (Z.ltb_spec 0 (b + 1 - a)); [| lia].
  unfold bind.
  destruct (randbelow_spec (Z.to_nat (b + 1 - a)) w s) as [j [-> Hj]].
  specialize (Hj ltac:(lia)).
  eexists; split; [reflexivity|]. lia.
Qed.

(** ** The record builder *)

Lemma NoDup_PRODUCT_IDS : NoDup PRODUCT_IDS.
Proof.
  unfold PRODUCT_IDS.
  repeat (constructor; [simpl; intuition discriminate|]).
  constructor.
Qed.

(** The builder always returns; it reads the clock once and
    [datetime.now()] once, draws from the generator, and touches neither
    the producer nor the console. *)
Lemma create_order_message_spec (w : world) (s : state) :
  exists customer_id product_ids d,
    create_order_message w s
    = (Returned (order_id_at w (clock_reads s),
                 order_fields (order_id_at w (clock_reads s)) customer_id
                              product_ids (now_iso w (now_reads s))),
       mk_state (S (clock_reads s)) d (S (now_reads s)) (submits s) (naps s)
                (trace s))
    /\ In customer_id CUSTOMER_IDS
    /\ (1 <= List.length product_ids <= 3)%nat
    /\ NoDup product_ids
    /\ incl product_ids PRODUCT_IDS.
Proof.
  unfold create_order_message.
  unfold bind at 1. unfold time_time_ms at 1.
  set (s1 := mk_state (S (clock_reads s)) _ _ _ _ _).
  unfold bind at 1.
  destruct (random_choice_spec CUSTOMER_IDS w s1) as [c [-> Hc]];
    [discriminate|].
  unfold bind at 1.
  destruct (random_randint_spec 1 3 w (with_draws s1 (S (draws s1))))
    as [k [-> Hk]]; [lia|].
  set (s3 := with_draws (with_draws s1 _) _).
  unfold bind at 1.
  destruct (random_sample_spec PRODUCT_IDS k w s3 NoDup_PRODUCT_IDS)
    as [pids [-> [Hl [Hnd Hinc]]]]; [simpl; lia|].
  exists c, pids. eexists. split; [reflexivity|].
  repeat split; auto; lia.
Qed.

(** ** One turn of the loop *)

Lemma send_one_spec (w : world) (num_messages : Z) (delay_seconds : float)
    (i : Z) (s : state) :
  exists customer_id product_ids d,
    In customer_id CUSTOMER_IDS
    /\ (1 <= List.length product_ids <= 3)%nat
    /\ NoDup product_ids
    /\ incl product_ids PRODUCT_IDS
    /\ send_one the_producer num_messages delay_seconds i w s
       = let st := mk_state (S (clock_reads s)) d (S (now_reads s))
                            (S (submits s)) in
         let ev := sent w (clock_reads s) (now_reads s) customer_id product_ids in
         let att := attempt_events w num_messages i (submits s)
                      (order_id_at w (clock_reads s)) customer_id product_ids in
         match send_raises w (submits s) with
         | Some e => (Raised e, st (naps s) (trace s ++ [ev])%list)
         | None =>
             match escapes w (submits s) with
             | Some e => (Raised e, st (naps s) (trace s ++ ev :: att)%list)
             | None =>
                 if (i <? num_messages - 1)%Z then
                   (answer (pause_raises w delay_seconds (naps s)),
                    st (S (naps s))
                       (trace s ++ ev :: att ++ [Sleep delay_seconds])%list)
                 else (Returned tt, st (naps s) (trace s ++ ev :: att)%list)
             end
         end.
Proof.
  destruct (create_order_message_spec w s)
    as [c [pids [d [Hrun [Hc [Hl [Hnd Hinc]]]]]]].
  exists c, pids, d. repeat split; try assumption; try lia.
  unfold send_one. unfold bind at 1. rewrite Hrun.
  unfold bind at 1.
  unfold producer_send, the_producer, sent, attempt_events, escapes; simpl.
  destruct (send_raises w (submits s)) as [e|]; [reflexivity|].
  unfold bind at 1. unfold try_except, bind at 1. unfold future_get at 1.
  destruct (delivery w (submits s)) as [md|e].
  - unfold bind, print, subscript, log, ret, time_sleep, success_report; simpl.
    destruct (i <? num_messages - 1)%Z; simpl;
      repeat (rewrite <- app_assoc; simpl); reflexivity.
  - destruct (is_KafkaError e); simpl.
    + unfold bind, print, log, ret, time_sleep; simpl.
      destruct (i <? num_messages - 1)%Z; simpl;
        repeat (rewrite <- app_assoc; simpl); reflexivity.
    + unfold log; simpl. repeat (rewrite <- app_assoc; simpl). reflexivity.
Qed.

(** ** The loop *)

(** The rule of the [for] loop over [range(n)]: an invariant [I],
    indexed by the number of turns done, that every turn keeps unless it
    raises, in which case [Q] holds of the exception and the state. *)
Lemma for_each_range_rule (body : Z -> py unit) (w : world) (n : Z)
    (I : nat -> state -> Prop) (Q : exn -> state -> Prop) :
  (forall i s, (Z.of_nat i < n)%Z -> I i s ->
     match body (Z.of_nat i) w s with
     | (Returned _, s') => I (S i) s'
     | (Raised e, s') => Q e s'
     end) ->
  forall s, I 0%nat s ->
    match for_each (range n) body w s with
    | (Returned _, s') => I (Z.to_nat n) s'
    | (Raised e, s') => Q e s'
    end.
Proof.
  intros Hbody. unfold range.
  assert (G : forall k a s, (a + k = Z.to_nat n)%nat -> I a s ->
            match for_each (map Z.of_nat (seq a k)) body w s with
            | (Returned _, s') => I (Z.to_nat n) s'
            | (Raised e, s') => Q e s'
            end).
  { induction k as [|k IH]; intros a s Hak Ha.
    - simpl. unfold ret. rewrite Nat.add_0_r in Hak. subst a. exact Ha.
    - simpl. unfold bind.
      specialize (Hbody a s ltac:(lia) Ha).
      destruct (body (Z.of_nat a) w s) as [[u|e] s']; [|exact Hbody].
      apply IH; [lia | exact Hbody]. }
  intros s Hs. apply (G (Z.to_nat n) 0%nat s); [reflexivity | exact Hs].
Qed.

Lemma send_messages_unfold (num_messages : Z) (delay_seconds : float)
    (w : world) (s : state) :
  send_messages num_messages delay_seconds w s
  = match connect_raises w with
    | Some e => (Raised e, logs [Connect KAFKA_BOOTSTRAP_SERVERS] s)
    | None =>
        match for_each (range num_messages)
                (send_one the_producer num_messages delay_seconds) w
                (logs (banner w num_messages delay_seconds) s) with
        | (Returned _, s') =>
            match close_raises w with
            | Some e => (Raised e, logs [Close] s')
            | None => (Returned tt, logs [Close; Print all_sent_line] s')
            end
        | (Raised e, s') => (Raised e, s')
        end
    end.
Proof.
  unfold send_messages. unfold bind at 1. unfold new_KafkaProducer.
  destruct (connect_raises w) as [e|]; [reflexivity|].
  unfold bind at 1. unfold print at 1.
  unfold bind at 1. unfold print at 1.
  unfold bind at 1. unfold print at 1.
  unfold bind at 1. unfold print at 1.
  unfold bind at 1.
  replace (log _ (log _ (log _ (log _ (log _ s)))))
    with (logs (banner w num_messages delay_seconds) s).
  2:{ unfold logs, log, banner; simpl.
      repeat (rewrite <- app_assoc; simpl). reflexivity. }
  fold the_producer.
  destruct (for_each _ _ w _) as [[u|e] s']; [|reflexivity].
  unfold bind, producer_close, print, answer.
  destruct (close_raises w); [reflexivity|].
  unfold logs, log; simpl. rewrite <- app_assoc. reflexivity.
Qed.

Lemma main_unfold (argv : list string) (w : world) (s : state) :
  main argv w s
  = match parse_args_from w argv default_namespace with
    | Raised e => (Raised e, s)
    | Returned args =>
        match send_messages (count args) (delay args) w s with
        | (Returned u, s') => (Returned u, s')
        | (Raised e, s') =>
            if is_KeyboardInterrupt e then
              (Returned tt, logs [Print interrupted_line] s')
            else if is_Exception e then
              (Returned tt, logs [Print ("❌ Error: " ++ exn_str e)] s')
            else (Raised e, s')
        end
    end.
Proof.
  unfold main, bind, parse_args.
  destruct (parse_args_from w argv default_namespace) as [args|e];
    [|reflexivity].
  unfold try_except.
  destruct (send_messages (count args) (delay args) w s) as [[u|e] s'];
    [reflexivity|].
  destruct e; reflexivity.
Qed.

Lemma calm_S (w : world) (num_messages : Z) (delay_seconds : float) (n : nat) :
  calm w num_messages delay_seconds (S n)
  = (calm w num_messages delay_seconds n
     && quiet w num_messages delay_seconds n)%bool.
Proof.
  unfold calm. rewrite seq_S, forallb_app. simpl. rewrite andb_true_r.
  reflexivity.
Qed.

Lemma calm_quiet (w : world) (num_messages : Z) (delay_seconds : float)
    (n k : nat) :
  calm w num_messages delay_seconds n = true -> (k < n)%nat ->
  quiet w num_messages delay_seconds k = true.
Proof.
  unfold calm. rewrite forallb_forall. intros H Hk. apply H.
  apply in_seq. lia.
Qed.

Lemma calm_le (w : world) (num_messages : Z) (delay_seconds : float)
    (n m : nat) :
  calm w num_messages delay_seconds n = true -> (m <= n)%nat ->
  calm w num_messages delay_seconds m = true.
Proof.
  unfold calm. rewrite !forallb_forall. intros H Hm x Hx. apply H.
  apply in_seq. apply in_seq in Hx. lia.
Qed.

Lemma turns_app (w : world) (num_messages : Z) (delay_seconds : float)
    (os os' : list choice) :
  forall k,
    turns w num_messages delay_seconds k (os ++ os')%list
    = (turns w num_messages delay_seconds k os
       ++ turns w num_messages delay_seconds (k + List.length os) os')%list.
Proof.
  induction os as [|o os IH]; intros k.
  - simpl. rewrite Nat.add_0_r. reflexivity.
  - rewrite <- app_comm_cons. cbn [turns List.length].
    rewrite IH, <- app_assoc.
    replace (S k + List.length os)%nat with (k + S (List.length os))%nat by lia.
    reflexivity.
Qed.

(** The whole loop, in any world: either every turn is quiet and the
    loop runs to its end, or the first turn that is not quiet leaves it
    by the exception it raised. *)
Lemma loop_outcome (w : world) (num_messages : Z) (delay_seconds : float) :
  match for_each (range num_messages)
          (send_one the_producer num_messages delay_seconds) w
          (logs (banner w num_messages delay_seconds) init_state) with
  | (Returned _, s') =>
      after_turns w num_messages delay_seconds (Z.to_nat num_messages) s'
  | (Raised e, s') => cut_short w num_messages delay_seconds e s'
  end.
Proof.
  apply for_each_range_rule
    with (I := after_turns w num_messages delay_seconds).
  - intros i s Hi [Hcalm [os [d [Hlen [Hval ->]]]]].
    destruct (send_one_spec w num_messages delay_seconds (Z.of_nat i)
                (mk_state i d i i (Nat.min i (Z.to_nat num_messages - 1))
                   (banner w num_messages delay_seconds
                    ++ turns w num_messages delay_seconds 0 os)))
      as [c [p [d' [Hc [Hl [Hnd [Hinc ->]]]]]]].
    assert (Hvo : valid_choice (c, p)) by (repeat split; simpl; auto; lia).
    assert (Hmin : Nat.min i (Z.to_nat num_messages - 1) = i) by lia.
    cbn [clock_reads now_reads submits naps trace]. rewrite Hmin.
    destruct (send_raises w i) as [e|] eqn:Hsend.
    { exists i, os, (c, p), d', i, [sent w i i c p].
      do 5 (split; [assumption|]).
      split; [apply stopped_send; assumption|].
      rewrite <- app_assoc. reflexivity. }
    destruct (escapes w i) as [e|] eqn:Hesc.
    { exists i, os, (c, p), d', i, [sent w i i c p; Get i 10].
      unfold escapes in Hesc. unfold attempt_events.
      destruct (delivery w i) as [md|e'] eqn:Hdel; [discriminate|].
      destruct (is_KafkaError e') eqn:Hk; [discriminate|].
      injection Hesc as ->.
      do 5 (split; [assumption|]).
      split; [apply stopped_wait; assumption|].
      rewrite <- app_assoc. reflexivity. }
    destruct (Z.ltb_spec (Z.of_nat i) (num_messages - 1)) as [Hlt|Hge].
    + destruct (pause_raises w delay_seconds i) as [e|] eqn:Hsleep; simpl answer.
      { exists i, os, (c, p), d', (S i),
          (turn_events w num_messages delay_seconds i (c, p)).
        do 5 (split; [assumption|]).
        split; [apply stopped_sleep; assumption|].
        unfold turn_events, pause_events. simpl fst; simpl snd.
        destruct (Z.ltb_spec (Z.of_nat i) (num_messages - 1)); [|lia].
        rewrite <- app_assoc. reflexivity. }
      split.
      * rewrite calm_S, Hcalm. unfold quiet. rewrite Hsend, Hesc. simpl.
        destruct (Z.ltb_spec (Z.of_nat i) (num_messages - 1)); [|lia].
        rewrite Hsleep. reflexivity.
      * exists (os ++ [(c, p)])%list, d'. repeat split.
        -- rewrite length_app. simpl. lia.
        -- apply Forall_app. split; auto.
        -- rewrite turns_app. simpl turns. rewrite app_nil_r, Hlen.
           unfold turn_events, pause_events. simpl fst; simpl snd.
           destruct (Z.ltb_spec (Z.of_nat i) (num_messages - 1)); [|lia].
           rewrite <- app_assoc.
           replace (Nat.min (S i) (Z.to_nat num_messages - 1)) with (S i)
             by lia.
           reflexivity.
    + split.
      * rewrite calm_S, Hcalm. unfold quiet. rewrite Hsend, Hesc. simpl.
        destruct (Z.ltb_spec (Z.of_nat i) (num_messages - 1)); [lia|].
        reflexivity.
      * exists (os ++ [(c, p)])%list, d'. repeat split.
        -- rewrite length_app. simpl. lia.
        -- apply Forall_app. split; auto.
        -- rewrite turns_app. simpl turns. rewrite app_nil_r, Hlen.
           unfold turn_events, pause_events. simpl fst; simpl snd.
           destruct (Z.ltb_spec (Z.of_nat i) (num_messages - 1)); [lia|].
           rewrite <- app_assoc, app_nil_r.
           replace (Nat.min (S i) (Z.to_nat num_messages - 1)) with i by lia.
           reflexivity.
  - split; [reflexivity|]. exists [], 0%nat.
    split; [reflexivity|]. split; [constructor|].
    unfold logs, init_state; simpl. reflexivity.
Qed.

(** ** Whole runs of [send_messages] *)

Lemma stopped_not_quiet (w : world) (num_messages : Z) (delay_seconds : float)
    (k : nat) (o : choice) (e : exn) (pauses : nat) (evs : list event) :
  stopped w num_messages delay_seconds k o e pauses evs ->
  quiet w num_messages delay_seconds k = false.
Proof.
  unfold quiet, escapes. intros [e' Hs | e' Hs Hd Hk | e' Hs He Hlt Hsl].
  - rewrite Hs. reflexivity.
  - rewrite Hs, Hd, Hk. reflexivity.
  - unfold escapes in He. rewrite Hs, He. simpl.
    destruct (Z.ltb_spec (Z.of_nat k) (num_messages - 1)); [|lia].
    rewrite Hsl. reflexivity.
Qed.

(** A run in which every turn is quiet. *)
Lemma send_messages_calm (w : world) (num_messages : Z) (delay_seconds : float) :
  connect_raises w = None ->
  calm w num_messages delay_seconds (Z.to_nat num_messages) = true ->
  exists os d,
    List.length os = Z.to_nat num_messages
    /\ Forall valid_choice os
    /\ send_messages num_messages delay_seconds w init_state
       = (answer (close_raises w),
          mk_state (Z.to_nat num_messages) d (Z.to_nat num_messages)
            (Z.to_nat num_messages)
            (Nat.min (Z.to_nat num_messages) (Z.to_nat num_messages - 1))
            (banner w num_messages delay_seconds
             ++ turns w num_messages delay_seconds 0 os
             ++ Close :: if is_none (close_raises w)
                         then [Print all_sent_line] else [])).
Proof.
  intros Hconn Hcalm. rewrite send_messages_unfold, Hconn.
  pose proof (loop_outcome w num_messages delay_seconds) as H.
  destruct (for_each _ _ w _) as [[[]|e] s'].
  - destruct H as [_ [os [d [Hlen [Hval ->]]]]].
    exists os, d. split; [assumption|]. split; [assumption|].
    destruct (close_raises w); unfold logs, answer;
      cbn [clock_reads draws now_reads submits naps trace is_none];
      rewrite <- app_assoc; reflexivity.
  - destruct H as [k [os [o [d [pauses [evs [Hk [_ [_ [_ [_ [Hst _]]]]]]]]]]]].
    apply stopped_not_quiet in Hst.
    rewrite (calm_quiet w num_messages delay_seconds (Z.to_nat num_messages) k) in Hst;
      [discriminate | assumption | lia].
Qed.

(** A run whose first turn that is not quiet is turn [k]. *)
Lemma send_messages_cut (w : world) (num_messages : Z) (delay_seconds : float)
    (k : nat) :
  connect_raises w = None ->
  (Z.of_nat k < num_messages)%Z ->
  calm w num_messages delay_seconds k = true ->
  quiet w num_messages delay_seconds k = false ->
  exists os o d e pauses evs,
    List.length os = k
    /\ Forall valid_choice os /\ valid_choice o
    /\ stopped w num_messages delay_seconds k o e pauses evs
    /\ send_messages num_messages delay_seconds w init_state
       = (Raised e,
          mk_state (S k) d (S k) (S k) pauses
            (banner w num_messages delay_seconds
             ++ turns w num_messages delay_seconds 0 os ++ evs)).
Proof.
  intros Hconn Hk Hcalm Hloud. rewrite send_messages_unfold, Hconn.
  pose proof (loop_outcome w num_messages delay_seconds) as H.
  destruct (for_each _ _ w _) as [[[]|e] s'].
  - destruct H as [Hall _].
    rewrite (calm_quiet w num_messages delay_seconds (Z.to_nat num_messages) k) in Hloud;
      [discriminate | assumption | lia].
  - destruct H as [k' [os [o [d [pauses [evs
        [Hk' [Hcalm' [Hlen [Hval [Hvo [Hst ->]]]]]]]]]]]].
    assert (Hkk : k' = k).
    { pose proof (stopped_not_quiet _ _ _ _ _ _ _ _ Hst) as Hq.
      destruct (Nat.lt_trichotomy k' k) as [Hlt | [Heq | Hgt]]; auto.
      - rewrite (calm_quiet w num_messages delay_seconds k k') in Hq;
          [discriminate | assumption | assumption].
      - rewrite (calm_quiet w num_messages delay_seconds k' k) in Hloud;
          [discriminate | assumption | assumption]. }
    rewrite Hkk in *. exists os, o, d, e, pauses, evs.
    do 4 (split; [assumption|]). reflexivity.
Qed.

(** ** The projections on the events of a run *)

Lemma sends_app (a b : list event) : sends (a ++ b) = (sends a ++ sends b)%list.
Proof. apply flat_map_app. Qed.

Lemma pacing_app (a b : list event) :
  pacing (a ++ b) = (pacing a ++ pacing b)%list.
Proof. apply flat_map_app. Qed.

Lemma headlines_app (a b : list event) :
  headlines (a ++ b) = (headlines a ++ headlines b)%list.
Proof. apply flat_map_app. Qed.

Lemma sends_prints (lines : list string) : sends (map Print lines) = [].
Proof. induction lines; simpl; auto. Qed.

Lemma pacing_prints (lines : list string) : pacing (map Print lines) = [].
Proof. induction lines; simpl; auto. Qed.

Section Turns.

Variable w : world.
Variable num_messages : Z.
Variable delay_seconds : float.

Lemma sends_banner : sends (banner w num_messages delay_seconds) = [].
Proof. reflexivity. Qed.

Lemma pacing_banner : pacing (banner w num_messages delay_seconds) = [].
Proof. reflexivity. Qed.

Lemma headlines_banner : headlines (banner w num_messages delay_seconds) = [].
Proof. reflexivity. Qed.

Lemma sends_attempt (i : Z) (fut : nat) (oid c : string) (p : list string) :
  sends (attempt_events w num_messages i fut oid c p) = [].
Proof.
  unfold attempt_events. destruct (delivery w fut) as [md|e]; [reflexivity|].
  destruct (is_KafkaError e); reflexivity.
Qed.

Lemma pacing_attempt (i : Z) (fut : nat) (oid c : string) (p : list string) :
  pacing (attempt_events w num_messages i fut oid c p) = [].
Proof.
  unfold attempt_events. destruct (delivery w fut) as [md|e]; [reflexivity|].
  destruct (is_KafkaError e); reflexivity.
Qed.

Lemma headlines_attempt (k : nat) (oid c : string) (p : list string) :
  escapes w k = None ->
  headlines (attempt_events w num_messages (Z.of_nat k) k oid c p)
  = [headline w num_messages k].
Proof.
  unfold escapes, attempt_events, headline.
  destruct (delivery w k) as [md|e]; intros He.
  - reflexivity.
  - destruct (is_KafkaError e); [reflexivity | discriminate].
Qed.

Lemma sends_pause (k : nat) :
  sends (pause_events num_messages delay_seconds k) = [].
Proof. unfold pause_events. destruct (_ <? _)%Z; reflexivity. Qed.

Lemma headlines_pause (k : nat) :
  headlines (pause_events num_messages delay_seconds k) = [].
Proof. unfold pause_events. destruct (_ <? _)%Z; reflexivity. Qed.

Lemma sends_turn (k : nat) (o : choice) :
  sends (turn_events w num_messages delay_seconds k o) = [publish_of w k o].
Proof.
  unfold turn_events.
  change (sends (?e :: ?l)) with (sends [e] ++ sends l)%list.
  rewrite sends_app, sends_attempt, sends_pause. reflexivity.
Qed.

Lemma pacing_turn (k : nat) (o : choice) :
  pacing (turn_events w num_messages delay_seconds k o)
  = turn_pacing num_messages delay_seconds k.
Proof.
  unfold turn_events, turn_pacing, pause_events.
  change (pacing (?e :: ?l)) with (pacing [e] ++ pacing l)%list.
  rewrite pacing_app, pacing_attempt.
  destruct (_ <? _)%Z; reflexivity.
Qed.

Lemma headlines_turn (k : nat) (o : choice) :
  escapes w k = None ->
  headlines (turn_events w num_messages delay_seconds k o)
  = [headline w num_messages k].
Proof.
  intros He. unfold turn_events.
  change (headlines (?e :: ?l)) with (headlines [e] ++ headlines l)%list.
  rewrite headlines_app, headlines_attempt, headlines_pause by assumption.
  reflexivity.
Qed.

Lemma sends_turns (os : list choice) :
  forall k, sends (turns w num_messages delay_seconds k os) = publishes w k os.
Proof.
  induction os as [|o os IH]; intros k; [reflexivity|].
  cbn [turns publishes]. rewrite sends_app, sends_turn, IH. reflexivity.
Qed.

Lemma pacing_turns (os : list choice) :
  forall k,
    pacing (turns w num_messages delay_seconds k os)
    = flat_map (turn_pacing num_messages delay_seconds)
               (seq k (List.length os)).
Proof.
  induction os as [|o os IH]; intros k; [reflexivity|].
  cbn [turns List.length seq flat_map].
  rewrite pacing_app, pacing_turn, IH. reflexivity.
Qed.

Lemma quiet_escapes (k : nat) :
  quiet w num_messages delay_seconds k = true -> escapes w k = None.
Proof.
  unfold quiet. destruct (send_raises w k); [discriminate|].
  destruct (escapes w k); [discriminate | reflexivity].
Qed.

Lemma headlines_turns (os : list choice) :
  forall k,
    calm w num_messages delay_seconds (k + List.length os) = true ->
    headlines (turns w num_messages delay_seconds k os)
    = map (headline w num_messages) (seq k (List.length os)).
Proof.
  induction os as [|o os IH]; intros k Hcalm; [reflexivity|].
  cbn [turns List.length seq map]. cbn [List.length] in Hcalm.
  rewrite headlines_app, headlines_turn, IH.
  - reflexivity.
  - replace (S k + List.length os)%nat with (k + S (List.length os))%nat
      by lia.
    exact Hcalm.
  - apply quiet_escapes.
    apply (calm_quiet w num_messages delay_seconds (k + S (List.length os)));
      [assumption|lia].
Qed.

(** The events of turn [i] when its wait raises a delivery error. *)
Lemma turn_events_failed (i : nat) (o : choice) (t : string) :
  delivery w i = Raised (KafkaError t) ->
  turn_events w num_messages delay_seconds i o
  = sent w i i (fst o) (snd o)
    :: Get i 10
    :: Print (failure_line (Z.of_nat i) (KafkaError t))
    :: pause_events num_messages delay_seconds i.
Proof.
  intros Hd. unfold turn_events, attempt_events. rewrite Hd. reflexivity.
Qed.

Lemma sends_stopped (k : nat) (o : choice) (e : exn) (pauses : nat)
    (evs : list event) :
  stopped w num_messages delay_seconds k o e pauses evs ->
  sends evs = [publish_of w k o].
Proof.
  intros [e' Hs | e' Hs Hd Hk | e' Hs He Hlt Hsl]; try reflexivity.
  apply sends_turn.
Qed.

(** The events of the loop are neither the closing of the producer
    nor the completion line. *)
Lemma turn_event_not_final (k : nat) (o : choice) (e : event) :
  In e (turn_events w num_messages delay_seconds k o) ->
  e <> Close /\ e <> Print all_sent_line.
Proof.
  unfold turn_events, attempt_events, pause_events, sent.
  intros [H|[H|H]]; try (subst e; split; discriminate).
  apply in_app_or in H. destruct H as [H|H].
  - destruct (delivery w k) as [md|x].
    + unfold success_report, success_line in H. simpl in H.
      repeat (destruct H as [H|H]; [subst e; split; discriminate|]).
      destruct H.
    + destruct (is_KafkaError x); [|destruct H].
      unfold failure_line in H. simpl in H.
      destruct H as [H|[]]. subst e. split; discriminate.
  - destruct (_ <? _)%Z; [|destruct H].
    destruct H as [H|[]]. subst e. split; discriminate.
Qed.

Lemma turns_event_not_final (os : list choice) (e : event) :
  forall k,
    In e (turns w num_messages delay_seconds k os) ->
    e <> Close /\ e <> Print all_sent_line.
Proof.
  induction os as [|o os IH]; intros k H; [destruct H|].
  cbn [turns] in H. apply in_app_or in H. destruct H as [H|H].
  - exact (turn_event_not_final _ _ _ H).
  - exact (IH _ H).
Qed.

Lemma banner_event_not_final (e : event) :
  In e (banner w num_messages delay_seconds) ->
  e <> Close /\ e <> Print all_sent_line.
Proof.
  unfold banner. simpl.
  intros H. repeat (destruct H as [H|H]; [subst e; split; discriminate|]).
  destruct H.
Qed.

End Turns.

Lemma length_publishes (w : world) (os : list choice) :
  forall k, List.length (publishes w k os) = List.length os.
Proof.
  induction os as [|o os IH]; intros k; simpl; [reflexivity|].
  rewrite IH. reflexivity.
Qed.

Lemma publishes_app (w : world) (os os' : list choice) :
  forall k,
    publishes w k (os ++ os')
    = (publishes w k os ++ publishes w (k + List.length os) os')%list.
Proof.
  induction os as [|o os IH]; intros k.
  - simpl. rewrite Nat.add_0_r. reflexivity.
  - rewrite <- app_comm_cons. cbn [publishes List.length app].
    rewrite IH.
    replace (S k + List.length os)%nat with (k + S (List.length os))%nat by lia.
    reflexivity.
Qed.

Lemma turns_split (w : world) (num_messages : Z) (delay_seconds : float)
    (os : list choice) (n : nat) :
  (n <= List.length os)%nat ->
  turns w num_messages delay_seconds 0 os
  = (turns w num_messages delay_seconds 0 (firstn n os)
     ++ turns w num_messages delay_seconds n (skipn n os))%list.
Proof.
  intros Hn. rewrite <- (firstn_skipn n os) at 1.
  rewrite turns_app, length_firstn. cbn [Nat.add].
  replace (Nat.min n (List.length os)) with n by lia. reflexivity.
Qed.

Lemma stopped_starts_with_sent (w : world) (num_messages : Z)
    (delay_seconds : float) (k : nat) (o : choice) (e : exn) (pauses : nat)
    (evs : list event) :
  stopped w num_messages delay_seconds k o e pauses evs ->
  exists rest, evs = sent w k k (fst o) (snd o) :: rest.
Proof.
  intros [e' Hs | e' Hs Hd Hk | e' Hs He Hlt Hsl]; eexists; reflexivity.
Qed.

(** A run whose first [n] turns are quiet: its trace begins with the
    banner and the events of these turns, and goes on with the publish
    call of turn [n] when there is such a turn. *)
Lemma run_reaches (w : world) (num_messages : Z) (delay_seconds : float)
    (n : nat) :
  connect_raises w = None ->
  (n <= Z.to_nat num_messages)%nat ->
  calm w num_messages delay_seconds n = true ->
  exists os rest,
    List.length os = n
    /\ trace (snd (send_messages num_messages delay_seconds w init_state))
       = (banner w num_messages delay_seconds
          ++ turns w num_messages delay_seconds 0 os ++ rest)%list
    /\ ((n < Z.to_nat num_messages)%nat ->
        exists c p rest', rest = sent w n n c p :: rest').
Proof.
  intros Hconn Hn Hcalm. rewrite send_messages_unfold, Hconn.
  pose proof (loop_outcome w num_messages delay_seconds) as H.
  destruct (for_each _ _ w _) as [[[]|e] s'].
  - destruct H as [_ [os [d [Hlen [Hval ->]]]]].
    exists (firstn n os).
    exists (turns w num_messages delay_seconds n (skipn n os)
            ++ Close :: if is_none (close_raises w)
                        then [Print all_sent_line] else [])%list.
    split; [rewrite length_firstn; lia|]. split.
    + rewrite (turns_split w num_messages delay_seconds os n) by lia.
      destruct (close_raises w); unfold logs; cbn [snd trace is_none];
        rewrite <- !app_assoc; reflexivity.
    + intros Hlt. pose proof (length_skipn n os) as Hsk.
      destruct (skipn n os) as [|o rest]; [simpl in Hsk; lia|].
      exists (fst o), (snd o). eexists. reflexivity.
  - destruct H as [k [os [o [d [pauses [evs
        [Hk [Hcalmk [Hlen [Hval [Hvo [Hst ->]]]]]]]]]]]].
    assert (Hnk : (n <= k)%nat).
    { destruct (Nat.le_gt_cases n k) as [Hle|Hgt]; [assumption|].
      pose proof (stopped_not_quiet _ _ _ _ _ _ _ _ Hst) as Hq.
      rewrite (calm_quiet w num_messages delay_seconds n k Hcalm Hgt) in Hq. discriminate. }
    exists (firstn n os).
    exists (turns w num_messages delay_seconds n (skipn n os) ++ evs)%list.
    split; [rewrite length_firstn; lia|]. split.
    + rewrite (turns_split w num_messages delay_seconds os n) by lia.
      cbn [snd trace]. rewrite <- !app_assoc. reflexivity.
    + intros _. pose proof (length_skipn n os) as Hsk.
      destruct (skipn n os) as [|o' rest].
      * simpl in Hsk. assert (Hkn : k = n) by lia. rewrite Hkn in Hst.
        destruct (stopped_starts_with_sent _ _ _ _ _ _ _ _ Hst) as [rest' ->].
        exists (fst o), (snd o), rest'. reflexivity.
      * exists (fst o'), (snd o'). eexists. reflexivity.
Qed.

Lemma rounds_then_last (num_messages : Z) (delay_seconds : float) (m : nat) :
  num_messages = Z.of_nat (S m) ->
  flat_map (turn_pacing num_messages delay_seconds) (seq 0 (S m))
  = paced delay_seconds (S m).
Proof.
  intros HN. rewrite seq_S, flat_map_app. simpl paced. f_equal.
  - assert (G : forall k a, (a + k <= m)%nat ->
              flat_map (turn_pacing num_messages delay_seconds) (seq a k)
              = List.concat (repeat [Publish; Pause delay_seconds] k)).
    { induction k as [|k IH]; intros a Ha; [reflexivity|].
      cbn [seq flat_map repeat List.concat]. rewrite IH by lia.
      unfold turn_pacing at 1.
      destruct (Z.ltb_spec (Z.of_nat a) (num_messages - 1)); [reflexivity|lia]. }
    apply G. lia.
  - simpl. unfold turn_pacing.
    destruct (Z.ltb_spec (Z.of_nat m) (num_messages - 1)); [lia|reflexivity].
Qed.

Lemma count_pauses_rounds (d : float) (m : nat) :
  List.length (filter is_Pause (List.concat (repeat [Publish; Pause d] m) ++ [Publish]))
  = m.
Proof.
  induction m as [|m IH]; [reflexivity|].
  cbn [repeat List.concat]. simpl. rewrite IH. reflexivity.
Qed.

(** The projections commute with the pieces a trace is made of. *)
Create Rewrite HintDb projections.
#[local] Hint Rewrite
  sends_app sends_banner sends_turns sends_prints
  pacing_app pacing_banner pacing_turns pacing_prints
  headlines_app headlines_banner
  length_publishes app_nil_r : projections.

(** ** The claims about the publisher loop *)

(** The publish calls and the pauses of a run in which every turn is
    quiet. *)
Lemma pacing_of_calm_run (w : world) (N : Z) (D : float) :
  (1 <= N)%Z ->
  connect_raises w = None ->
  calm w N D (Z.to_nat N) = true ->
  pacing (trace (snd (send_messages N D w init_state))) = paced D (Z.to_nat N)
  /\ publish_calls (trace (snd (send_messages N D w init_state))) = Z.to_nat N.
Proof.
  intros HN Hconn Hcalm.
  destruct (send_messages_calm w N D Hconn Hcalm)
    as [os [d [Hlen [Hval Hrun]]]].
  rewrite Hrun. cbn [snd trace]. split.
  - autorewrite with projections. rewrite Hlen.
    destruct (Z.to_nat N) as [|m] eqn:Hm; [lia|].
    rewrite (rounds_then_last N D m) by lia.
    destruct (is_none (close_raises w)); simpl; rewrite app_nil_r; reflexivity.
  - unfold publish_calls. autorewrite with projections.
    destruct (is_none (close_raises w)); simpl;
      autorewrite with projections; lia.
Qed.

(** When the producer, the waits and the system never raise anything
    but delivery errors, the turns of a run are quiet as soon as
    [time.sleep] accepts the delay, or no pause is made at all. *)
Lemma calm_of_accepted_delay (w : world) (N : Z) (D : float) :
  N = 1%Z \/ sleep_refusal D = None ->
  (forall k, (k < Z.to_nat N)%nat ->
             send_raises w k = None
             /\ escapes w k = None
             /\ sleep_raises w k = None) ->
  calm w N D (Z.to_nat N) = true.
Proof.
  intros HD Hall. unfold calm. apply forallb_forall.
  intros k Hk. apply in_seq in Hk.
  destruct (Hall k ltac:(lia)) as [Hs [He Hsl]].
  unfold quiet, pause_raises. rewrite Hs, He. cbn [is_none andb].
  destruct (Z.ltb_spec (Z.of_nat k) (N - 1)) as [Hlt|]; [|reflexivity].
  destruct HD as [-> | ->]; [lia|]. rewrite Hsl. reflexivity.
Qed.

(** C5, as the code has it.  Take a count [N >= 1] and a run in which
    the publish calls return, the waits return or raise delivery errors
    and nothing ends a pause.  If [time.sleep] accepts the delay [D] (no
    NaN, not negative, and less than [2^63] nanoseconds), the run makes
    exactly [N] publish calls and exactly [N - 1] pauses, each of [D]
    seconds and each between two publish calls, none after the last;
    with [N = 1] there is one publish call and no pause, whatever [D]
    is.  If [time.sleep] refuses [D] and [N >= 2], the first pause
    raises, after one publish call, and the run ends there. *)
Theorem publisher_loop_pacing (w : world) (N : Z) (D : float) :
  (1 <= N)%Z ->
  connect_raises w = None ->
  (forall k, (k < Z.to_nat N)%nat ->
             send_raises w k = None
             /\ escapes w k = None
             /\ sleep_raises w k = None) ->
  let run := send_messages N D w init_state in
  let tr := trace (snd run) in
  (N = 1%Z \/ sleep_refusal D = None ->
   pacing tr = paced D (Z.to_nat N)
   /\ Z.of_nat (publish_calls tr) = N
   /\ Z.of_nat (sleep_calls tr) = (N - 1)%Z
   /\ (N = 1%Z -> pacing tr = [Publish]))
  /\ (forall e, (2 <= N)%Z -> sleep_refusal D = Some e ->
                fst run = Raised e
                /\ pacing tr = [Publish; Pause D]
                /\ publish_calls tr = 1%nat).
Proof.
  intros HN Hconn Hall run tr. split.
  - intros HD.
    pose proof (calm_of_accepted_delay w N D HD Hall) as Hcalm.
    destruct (pacing_of_calm_run w N D HN Hconn Hcalm) as [Hp Hs].
    fold run in Hp, Hs. fold tr in Hp, Hs.
    split; [exact Hp|]. split; [|split].
    + rewrite Hs. lia.
    + unfold sleep_calls. rewrite Hp.
      destruct (Z.to_nat N) as [|m] eqn:Hm; [lia|].
      unfold paced. rewrite count_pauses_rounds. lia.
    + intros ->. rewrite Hp. reflexivity.
  - intros e HN2 HD.
    destruct (Hall 0%nat ltac:(lia)) as [Hs [He _]].
    assert (Hpause : pause_raises w D 0 = Some e)
      by (unfold pause_raises; rewrite HD; reflexivity).
    assert (Hloud : quiet w N D 0 = false).
    { unfold quiet. rewrite Hs, He, Hpause.
      destruct (Z.ltb_spec (Z.of_nat 0) (N - 1)); [reflexivity|lia]. }
    destruct (send_messages_cut w N D 0 Hconn ltac:(lia) eq_refl Hloud)
      as [os [o [d [e' [pauses [evs [Hlen [_ [_ [Hst Hrun]]]]]]]]]].
    destruct os as [|o' os']; [|discriminate].
    subst tr run. rewrite Hrun. cbn [fst snd trace turns app].
    unfold publish_calls.
    rewrite !sends_app, !pacing_app, sends_banner, pacing_banner.
    rewrite (sends_stopped _ _ _ _ _ _ _ _ Hst).
    inversion Hst as [e1 Hs1 | e1 Hs1 Hd Hk | e1 Hs1 He1 Hlt Hsl]; subst.
    + congruence.
    + unfold escapes in He. rewrite Hd, Hk in He. discriminate.
    + assert (e' = e) by congruence. subst e'.
      rewrite pacing_turn. unfold turn_pacing.
      destruct (Z.ltb_spec (Z.of_nat 0) (N - 1)); [|lia].
      repeat split.
Qed.

(** C5, as stated, fails for a delay that [time.sleep] refuses: with
    [--count 2 --delay -1], in a world where nothing else raises, the
    first pause raises the [ValueError] of [sleep]; the run has made one
    publish call, not two, and [main] prints the error. *)
Lemma negative_delay_ends_the_run :
  let tr := trace (snd (main ["--count"; "2"; "--delay"; "-1"]
                             steady_world init_state)) in
  parse_args_from steady_world ["--count"; "2"; "--delay"; "-1"]
    default_namespace
  = Returned (mk_namespace 2 (-1))
  /\ sleep_refusal (-1) = Some (OtherException "sleep length must be non-negative")
  /\ pacing tr = [Publish; Pause (-1)]
  /\ publish_calls tr = 1%nat
  /\ In (Print "❌ Error: sleep length must be non-negative") tr
  /\ ~ (Z.of_nat (publish_calls tr) = 2%Z).
Proof.
  intros tr. split; [reflexivity|]. split; [reflexivity|].
  assert (Hs : publish_calls tr = 1%nat) by (vm_compute; reflexivity).
  split; [vm_compute; reflexivity|]. split; [exact Hs|]. split.
  - subst tr. vm_compute. repeat (try (left; reflexivity); right).
  - rewrite Hs. discriminate.
Qed.

(** C10.  With a count [N <= 0] the loop body never runs: no publish
    call and no pause are made and no record is built, yet the producer
    is created and closed and the completion line is printed, and both
    [send_messages] and [main] return normally. *)
Theorem empty_run (argv : list string) (w : world) (N : Z) (D : float) :
  parse_args_from w argv default_namespace = Returned (mk_namespace N D) ->
  (N <= 0)%Z ->
  connect_raises w = None ->
  close_raises w = None ->
  let tr := (banner w N D ++ [Close; Print all_sent_line])%list in
  send_messages N D w init_state = (Returned tt, mk_state 0 0 0 0 0 tr)
  /\ main argv w init_state = (Returned tt, mk_state 0 0 0 0 0 tr)
  /\ publish_calls tr = 0%nat
  /\ sleep_calls tr = 0%nat
  /\ In (Connect KAFKA_BOOTSTRAP_SERVERS) tr
  /\ In Close tr.
Proof.
  intros Hparse HN Hconn Hclose tr.
  assert (Hrun : send_messages N D w init_state
                 = (Returned tt, mk_state 0 0 0 0 0 tr)).
  { rewrite send_messages_unfold, Hconn. unfold range.
    replace (Z.to_nat N) with 0%nat by lia. simpl. unfold ret.
    rewrite Hclose. reflexivity. }
  split; [exact Hrun|]. split.
  - rewrite main_unfold, Hparse. cbn [count delay]. rewrite Hrun. reflexivity.
  - split; [reflexivity|]. split; [reflexivity|]. split.
    + left. reflexivity.
    + subst tr. apply in_or_app. right. left. reflexivity.
Qed.

(** Three messages, half a second apart, in the steady world; and two
    messages with a delay of minus one second. *)
Lemma publisher_loop_pacing_witness :
  (1 <= 3)%Z
  /\ sleep_refusal 0.5 = None
  /\ connect_raises steady_world = None
  /\ (let tr := trace (snd (send_messages 3 0.5 steady_world init_state)) in
      pacing tr = paced 0.5 3
      /\ Z.of_nat (publish_calls tr) = 3%Z
      /\ Z.of_nat (sleep_calls tr) = (3 - 1)%Z)
  /\ (let tr := trace (snd (send_messages 2 (-1) steady_world init_state)) in
      pacing tr = [Publish; Pause (-1)]
      /\ publish_calls tr = 1%nat).
Proof.
  split; [lia|]. split; [reflexivity|]. split; [reflexivity|].
  split.
  - destruct (publisher_loop_pacing steady_world 3 0.5%float)
      as [H _];
      [lia | reflexivity | intros k _; repeat split; reflexivity |].
    destruct (H (or_intror eq_refl)) as [H1 [H2 [H3 _]]].
    repeat split; assumption.
  - destruct (publisher_loop_pacing steady_world 2 (-1)%float)
      as [_ H];
      [lia | reflexivity | intros k _; repeat split; reflexivity |].
    destruct (H _ ltac:(lia) eq_refl) as [_ [H1 H2]].
    split; assumption.
Defined.

(** A count of -2 in the steady world. *)
Lemma empty_run_witness :
  parse_args_from steady_world ["--count"; "-2"] default_namespace
  = Returned (mk_namespace (-2) 2)
  /\ (-2 <= 0)%Z
  /\ connect_raises steady_world = None
  /\ close_raises steady_world = None
  /\ main ["--count"; "-2"] steady_world init_state
     = (Returned tt,
        mk_state 0 0 0 0 0
          (banner steady_world (-2) 2 ++ [Close; Print all_sent_line])).
Proof.
  split; [reflexivity|]. split; [lia|]. split; [reflexivity|].
  split; [reflexivity|].
  apply (empty_run ["--count"; "-2"] steady_world (-2) 2%float);
    [reflexivity | lia | reflexivity | reflexivity].
Defined.

(** ** The claims about the record builder *)

(** C3.  The builder always returns a record, and the [productIds] of
    the record is a list of 1 to 3 entries, without duplicates, all drawn
    from [PRODUCT_IDS]. *)
Theorem product_ids_invariant (w : world) (s : state) :
  exists order_id message s' product_ids,
    create_order_message w s = (Returned (order_id, message), s')
    /\ dict_get message "productIds" = Some (PList (map PStr product_ids))
    /\ (1 <= List.length product_ids <= 3)%nat
    /\ NoDup product_ids
    /\ NoDup (map PStr product_ids)
    /\ (forall p, In p product_ids -> In p PRODUCT_IDS).
Proof.
  destruct (create_order_message_spec w s)
    as [c [pids [d [Hrun [Hc [Hl [Hnd Hinc]]]]]]].
  do 3 eexists. exists pids.
  split; [exact Hrun|]. split; [reflexivity|]. split; [exact Hl|].
  split; [exact Hnd|]. split; [|exact Hinc].
  apply Injective_map_NoDup; [|exact Hnd].
  intros a b Hab. injection Hab. auto.
Qed.

(** C7.  The builder always returns a record whose [customerId] is one
    of the five entries of [CUSTOMER_IDS]. *)
Theorem customer_id_in_catalog (w : world) (s : state) :
  exists order_id message s' customer_id,
    create_order_message w s = (Returned (order_id, message), s')
    /\ dict_get message "customerId" = Some (PStr customer_id)
    /\ In customer_id CUSTOMER_IDS
    /\ List.length CUSTOMER_IDS = 5%nat.
Proof.
  destruct (create_order_message_spec w s)
    as [c [pids [d [Hrun [Hc [Hl [Hnd Hinc]]]]]]].
  do 3 eexists. exists c.
  split; [exact Hrun|]. split; [reflexivity|]. split; [exact Hc|reflexivity].
Qed.

(** ** Reading back what [json.dumps] wrote *)

Lemma str_app_assoc (a b c : string) : (a ++ b) ++ c = a ++ (b ++ c).
Proof. induction a as [|x a IH]; simpl; [reflexivity | rewrite IH; reflexivity]. Qed.

Lemma str_app_nil_r (a : string) : a ++ "" = a.
Proof. induction a as [|x a IH]; simpl; [reflexivity | rewrite IH; reflexivity]. Qed.

Lemma read_escaped_char (c : ascii) (tail : string) :
  read_string_body (json_escape_char c ++ tail)
  = match read_string_body tail with
    | Some (x, r) => Some (String c x, r)
    | None => None
    end.
Proof.
  destruct c as [[] [] [] [] [] [] [] []]; reflexivity.
Qed.

Lemma read_escaped (s rest : string) :
  read_string_body (json_escape s ++ String (ascii_of_nat 34) rest)
  = Some (s, rest).
Proof.
  induction s as [|c s IH].
  - reflexivity.
  - cbn [json_escape]. rewrite str_app_assoc, read_escaped_char, IH.
    reflexivity.
Qed.

Lemma json_string_app (s rest : string) :
  json_string s ++ rest
  = String (ascii_of_nat 34) (json_escape s ++ String (ascii_of_nat 34) rest).
Proof.
  unfold json_string. cbn [append]. rewrite str_app_assoc. reflexivity.
Qed.

Lemma need_PList (items : list pyval) :
  need (PList items) = S (needs_items items).
Proof.
  reflexivity.
Qed.

Lemma need_PDict (fields : list (string * pyval)) :
  need (PDict fields) = S (needs_fields fields).
Proof.
  reflexivity.
Qed.

Lemma need_pos (v : pyval) : (1 <= need v)%nat.
Proof. destruct v; cbn [need]; lia. Qed.

(** The text of a value never begins with a closing bracket. *)
Lemma json_dumps_head (v : pyval) (x : string) :
  exists c y, json_dumps v ++ x = String c y /\ Ascii.eqb c "]" = false.
Proof.
  destruct v as [s|items|fields].
  - cbn [json_dumps]. rewrite json_string_app. eexists. eexists.
    split; reflexivity.
  - cbn [json_dumps append]. eexists. eexists. split; reflexivity.
  - cbn [json_dumps append]. eexists. eexists. split; reflexivity.
Qed.

Lemma str_join_cons2 (sep p q : string) (r : list string) :
  str_join sep (p :: q :: r) = p ++ sep ++ str_join sep (q :: r).
Proof. reflexivity. Qed.

Lemma items_text_head (v : pyval) (l : list pyval) (x : string) :
  exists c y,
    str_join ", " (map json_dumps (v :: l)) ++ x = String c y
    /\ Ascii.eqb c "]" = false.
Proof.
  destruct l as [|v' l']; cbn [map].
  - cbn [str_join]. apply json_dumps_head.
  - rewrite str_join_cons2, str_app_assoc. apply json_dumps_head.
Qed.

Lemma fields_text_head (kv : string * pyval) (l : list (string * pyval))
    (x : string) :
  exists y,
    str_join ", " (map field_text (kv :: l)) ++ x = String (ascii_of_nat 34) y.
Proof.
  destruct l as [|kv' l']; cbn [map].
  - cbn [str_join]. unfold field_text.
    rewrite str_app_assoc, json_string_app. eexists. reflexivity.
  - rewrite str_join_cons2. unfold field_text at 1.
    rewrite !str_app_assoc, json_string_app. eexists. reflexivity.
Qed.

(** With enough fuel the reader gives back the value, the items and
    the fields that were written, and the text that follows them. *)
Lemma read_back (fuel : nat) :
  (forall v rest,
      (need v <= fuel)%nat ->
      read_value fuel (json_dumps v ++ rest) = Some (v, rest))
  /\ (forall v l rest,
         (needs_items (v :: l) <= fuel)%nat ->
         read_items fuel (str_join ", " (map json_dumps (v :: l))
                          ++ String "]" rest)
         = Some (v :: l, rest))
  /\ (forall kv l rest,
         (needs_fields (kv :: l) <= fuel)%nat ->
         read_fields fuel (str_join ", " (map field_text (kv :: l))
                           ++ String "}" rest)
         = Some (kv :: l, rest)).
Proof.
  induction fuel as [|f [IHv [IHi IHf]]].
  - split; [|split].
    + intros v rest H. pose proof (need_pos v). lia.
    + intros v l rest H. cbn [needs_items] in H. lia.
    + intros kv l rest H. cbn [needs_fields] in H. lia.
  - split; [|split].
    + intros v rest H. destruct v as [s|items|fields].
      * cbn [json_dumps]. rewrite json_string_app. cbn [read_value].
        change (Nat.eqb (nat_of_ascii (ascii_of_nat 34)) 34) with true.
        cbn iota. rewrite read_escaped. reflexivity.
      * rewrite need_PList in H. cbn [json_dumps append].
        rewrite str_app_assoc. cbn [append read_value].
        change (Nat.eqb (nat_of_ascii "[") 34) with false.
        change (Ascii.eqb "[" "[") with true. cbn iota.
        destruct items as [|v l]; [reflexivity|].
        rewrite (IHi v l rest) by lia.
        destruct (items_text_head v l (String "]" rest)) as [c [y [-> Hc]]].
        rewrite Hc. reflexivity.
      * rewrite need_PDict in H.
        change (json_dumps (PDict fields))
          with (String "{" (str_join ", " (map field_text fields) ++ "}")).
        cbn [append]. rewrite str_app_assoc. cbn [append read_value].
        change (Nat.eqb (nat_of_ascii "{") 34) with false.
        change (Ascii.eqb "{" "[") with false.
        change (Ascii.eqb "{" "{") with true. cbn iota.
        destruct fields as [|kv l]; [reflexivity|].
        rewrite (IHf kv l rest) by lia.
        destruct (fields_text_head kv l (String "}" rest)) as [y ->].
        reflexivity.
    + intros v l rest H. cbn [needs_items] in H. cbn [read_items].
      destruct l as [|v' l']; cbn [map].
      * cbn [str_join]. rewrite (IHv v (String "]" rest)) by lia.
        reflexivity.
      * rewrite str_join_cons2, !str_app_assoc.
        rewrite (IHv v) by lia. cbn [append].
        change (json_dumps v' :: map json_dumps l')
          with (map json_dumps (v' :: l')).
        rewrite (IHi v' l' rest) by lia. reflexivity.
    + intros [k v] l rest H. cbn [needs_fields snd] in H. cbn [read_fields].
      destruct l as [|kv' l']; cbn [map].
      * cbn [str_join]. unfold field_text. cbn [fst snd].
        rewrite !str_app_assoc, json_string_app.
        change (Nat.eqb (nat_of_ascii (ascii_of_nat 34)) 34) with true.
        cbn iota. rewrite read_escaped. cbn [append].
        rewrite (IHv v (String "}" rest)) by lia. reflexivity.
      * rewrite str_join_cons2. unfold field_text at 1. cbn [fst snd].
        rewrite !str_app_assoc, json_string_app.
        change (Nat.eqb (nat_of_ascii (ascii_of_nat 34)) 34) with true.
        cbn iota. rewrite read_escaped. cbn [append].
        rewrite (IHv v) by lia. cbn [append].
        change (field_text kv' :: map field_text l')
          with (map field_text (kv' :: l')).
        rewrite (IHf kv' l' rest) by lia. reflexivity.
Qed.

(** [json.loads(json.dumps(v)) == v] *)
Lemma json_loads_dumps (v : pyval) :
  json_loads (need v) (json_dumps v) = Some v.
Proof.
  unfold json_loads.
  rewrite <- (str_app_nil_r (json_dumps v)).
  rewrite (proj1 (read_back (need v)) v "" (Nat.le_refl _)). reflexivity.
Qed.

Lemma decode_encode_utf8 (s : string) : decode_utf8 (encode_utf8 s) = s.
Proof. apply string_of_list_byte_of_string. Qed.

(** ** The publish calls of any run *)

(** In any world, the publish calls of a run are those of turns 0, 1,
    ... in this order, each for a valid order. *)
Lemma sends_of_run (w : world) (num_messages : Z) (delay_seconds : float) :
  exists os,
    Forall valid_choice os
    /\ sends (trace (snd (send_messages num_messages delay_seconds w init_state)))
       = publishes w 0 os.
Proof.
  rewrite send_messages_unfold.
  destruct (connect_raises w) as [e|]; [exists []; split; [constructor|reflexivity]|].
  pose proof (loop_outcome w num_messages delay_seconds) as H.
  destruct (for_each _ _ w _) as [[[]|e] s'].
  - destruct H as [_ [os [d [Hlen [Hval ->]]]]].
    exists os. split; [assumption|].
    destruct (close_raises w); unfold logs; cbn [snd trace];
      autorewrite with projections; simpl; autorewrite with projections;
      reflexivity.
  - destruct H as [k [os [o [d [pauses [evs
        [Hk [Hcalm [Hlen [Hval [Hvo [Hst ->]]]]]]]]]]]].
    exists (os ++ [o])%list. split.
    + apply Forall_app. split; [assumption | constructor; [assumption|constructor]].
    + cbn [snd trace].
      rewrite !sends_app, sends_banner, sends_turns,
        (sends_stopped _ _ _ _ _ _ _ _ Hst), publishes_app, Hlen.
      reflexivity.
Qed.

(** [main] adds only lines on the console to the trace of
    [send_messages]. *)
Lemma main_trace (argv : list string) (w : world) (s : state)
    (num_messages : Z) (delay_seconds : float) :
  parse_args_from w argv default_namespace
  = Returned (mk_namespace num_messages delay_seconds) ->
  exists lines,
    trace (snd (main argv w s))
    = (trace (snd (send_messages num_messages delay_seconds w s))
       ++ map Print lines)%list.
Proof.
  intros Hparse. rewrite main_unfold, Hparse. cbn [count delay].
  destruct (send_messages num_messages delay_seconds w s) as [[u|e] s'].
  - exists []. cbn [snd map]. rewrite app_nil_r. reflexivity.
  - destruct (is_KeyboardInterrupt e).
    + exists [interrupted_line]. reflexivity.
    + destruct (is_Exception e).
      * eexists [_]. reflexivity.
      * exists []. cbn [snd map]. rewrite app_nil_r. reflexivity.
Qed.

Lemma sends_of_main (argv : list string) (w : world) :
  exists os,
    Forall valid_choice os
    /\ sends (trace (snd (main argv w init_state))) = publishes w 0 os.
Proof.
  destruct (parse_args_from w argv default_namespace) as [[n d]|e] eqn:Hparse.
  - destruct (main_trace argv w init_state n d Hparse) as [lines ->].
    destruct (sends_of_run w n d) as [os [Hval Hs]].
    exists os. split; [assumption|].
    autorewrite with projections. exact Hs.
  - exists []. split; [constructor|].
    rewrite main_unfold, Hparse. reflexivity.
Qed.

Lemma publish_of_wire (w : world) (k : nat) (o : choice) :
  valid_choice o -> order_event_wire (publish_of w k o).
Proof.
  intros [Hc [_ [_ Hinc]]].
  exists (order_id_at w k), (fst o), (snd o), (now_iso w k).
  split; [reflexivity|]. split.
  - eexists. unfold publish_of, send_value_serializer. cbn [snd].
    rewrite decode_encode_utf8. apply json_loads_dumps.
  - split; [reflexivity|]. split; [reflexivity|]. split; assumption.
Qed.

Lemma publishes_wire (w : world) (os : list choice) :
  Forall valid_choice os ->
  forall k, Forall order_event_wire (publishes w k os).
Proof.
  induction 1 as [|o os Ho Hos IH]; intros k; simpl; constructor.
  - apply publish_of_wire; assumption.
  - apply IH.
Qed.

(** C6.  In any run of the script, every publish call goes to the topic
    with, as its value, the UTF-8 bytes of a JSON text, the one
    [json.dumps] writes for the message, which reads back as an object
    whose keys are exactly [orderId], [customerId], [productIds] and
    [timestamp], and, as its key, the UTF-8 bytes of the [orderId] of
    that object. *)
Theorem wire_payload (argv : list string) (w : world) :
  Forall order_event_wire (sends (trace (snd (main argv w init_state)))).
Proof.
  destruct (sends_of_main argv w) as [os [Hval ->]].
  apply publishes_wire; assumption.
Qed.

(** ** Order ids *)

Lemma to_int_proper (z : Z) :
  Z.to_int z <> Decimal.Pos Nil /\ Z.to_int z <> Decimal.Neg Nil.
Proof.
  destruct z as [|p|p]; simpl; split; try discriminate.
  - intros H. injection H. apply DecimalPos.Unsigned.to_uint_nonnil.
  - intros H. injection H. apply DecimalPos.Unsigned.to_uint_nonnil.
Qed.

Lemma int_of_str_int (z : Z) : int_of_str (str_int z) = Some z.
Proof.
  unfold int_of_str, str_int.
  destruct (to_int_proper z) as [Hp Hn].
  rewrite NilZero.isi by assumption. simpl.
  rewrite DecimalZ.of_to. reflexivity.
Qed.

Lemma str_int_inj (a b : Z) : str_int a = str_int b -> a = b.
Proof.
  intros H. apply (f_equal int_of_str) in H.
  rewrite !int_of_str_int in H. congruence.
Qed.

Lemma encode_utf8_inj (a b : string) : encode_utf8 a = encode_utf8 b -> a = b.
Proof.
  unfold encode_utf8. intros H.
  rewrite <- (string_of_list_byte_of_string a),
          <- (string_of_list_byte_of_string b), H.
  reflexivity.
Qed.

Lemma order_id_at_eq (w : world) (i j : nat) :
  order_id_at w i = order_id_at w j <-> time_ms w i = time_ms w j.
Proof.
  unfold order_id_at. split.
  - simpl. intros H. injection H. apply str_int_inj.
  - intros ->. reflexivity.
Qed.

Lemma sent_keys_publishes (w : world) (os : list choice) :
  forall k,
    map (fun x => snd (fst x)) (publishes w k os)
    = map (fun i => Some (encode_utf8 (order_id_at w i)))
          (seq k (List.length os)).
Proof.
  induction os as [|o os IH]; intros k; [reflexivity|].
  cbn [publishes List.length seq map]. rewrite IH. reflexivity.
Qed.

(** C2, as the code has it.  In any run of the script the key of the
    [k]-th publish call is the order id ["order-"] followed by the
    [k]-th reading of the clock in milliseconds, and two such ids are
    equal exactly when the two readings are equal. *)
Theorem order_ids_follow_the_clock (argv : list string) (w : world) :
  let tr := trace (snd (main argv w init_state)) in
  sent_keys tr
  = map (fun k => Some (encode_utf8 ("order-" ++ str_int (time_ms w k))))
        (seq 0 (publish_calls tr))
  /\ forall i j,
       encode_utf8 (order_id_at w i) = encode_utf8 (order_id_at w j)
       <-> time_ms w i = time_ms w j.
Proof.
  intros tr. split.
  - subst tr. unfold sent_keys, publish_calls.
    destruct (sends_of_main argv w) as [os [_ ->]].
    rewrite length_publishes. apply sent_keys_publishes.
  - intros i j. rewrite <- order_id_at_eq. split.
    + apply encode_utf8_inj.
    + intros ->. reflexivity.
Qed.

(** C2, as stated, fails when the clock gives the same millisecond to
    two turns: the two order ids are then the same. *)
Lemma order_ids_repeat_on_a_frozen_clock :
  ~ NoDup (sent_keys
             (trace (snd (main ["--count"; "2"; "--delay"; "0"]
                               frozen_clock_world init_state)))).
Proof.
  intros H.
  assert (E : sent_keys
                (trace (snd (main ["--count"; "2"; "--delay"; "0"]
                                  frozen_clock_world init_state)))
              = [Some (encode_utf8 "order-1700000000000");
                 Some (encode_utf8 "order-1700000000000")])
    by (vm_compute; reflexivity).
  rewrite E in H. inversion H as [|x l Hnotin _]. apply Hnotin. left. reflexivity.
Qed.

(** ** Reports *)

(** C1.  If the first [i] turns of a run are quiet, the wait of message
    [i] raises a delivery error and the pause after it returns, then the
    failure line of message [i] is printed right after the wait and,
    when [i] is not the last message, the pause and the publish call of
    message [i + 1] follow.  If moreover every turn is quiet, every
    message has its report, success or failure after its delivery, and
    all [N] publish calls are made.  (Messages are counted from 0 here;
    the line printed for message [i] shows [i + 1].) *)
Theorem delivery_error_is_reported_and_skipped (w : world) (N : Z) (D : float)
    (i : nat) (t : string) :
  connect_raises w = None ->
  (i < Z.to_nat N)%nat ->
  calm w N D (S i) = true ->
  delivery w i = Raised (KafkaError t) ->
  let tr := trace (snd (send_messages N D w init_state)) in
  (exists pre post,
      tr = (pre ++ Get i 10
                :: Print (failure_line (Z.of_nat i) (KafkaError t)) :: post)%list
      /\ ((S i < Z.to_nat N)%nat ->
          exists c p post',
            post = Sleep D :: sent w (S i) (S i) c p :: post'))
  /\ (calm w N D (Z.to_nat N) = true ->
      headlines tr = map (headline w N) (seq 0 (Z.to_nat N))
      /\ publish_calls tr = Z.to_nat N).
Proof.
  intros Hconn Hi Hcalm Hd tr. split.
  - destruct (run_reaches w N D (S i) Hconn ltac:(lia) Hcalm)
      as [os [rest [Hlen [Htr Hnext]]]].
    subst tr. rewrite Htr.
    assert (Hnth : exists o, nth_error os i = Some o).
    { destruct (nth_error os i) as [o|] eqn:E; [eauto|].
      apply nth_error_None in E. lia. }
    destruct Hnth as [o Ho].
    destruct (nth_error_split os i Ho) as [os1 [os2 [-> Hl1]]].
    rewrite length_app in Hlen. cbn [List.length] in Hlen.
    destruct os2 as [|o' os3]; [|cbn [List.length] in Hlen; lia].
    rewrite turns_app. cbn [turns]. rewrite Nat.add_0_l, Hl1, app_nil_r.
    rewrite (turn_events_failed w N D i o t Hd).
    exists (banner w N D ++ turns w N D 0 os1 ++ [sent w i i (fst o) (snd o)])%list.
    exists (pause_events N D i ++ rest)%list. split.
    + rewrite <- !app_assoc. cbn [app]. reflexivity.
    + intros Hlt. destruct (Hnext Hlt) as [c [p [rest' ->]]].
      unfold pause_events.
      destruct (Z.ltb_spec (Z.of_nat i) (N - 1)); [|lia].
      exists c, p, rest'. reflexivity.
  - intros Hall.
    destruct (send_messages_calm w N D Hconn Hall)
      as [os [d [Hlen [Hval Hrun]]]].
    subst tr. rewrite Hrun. cbn [snd trace]. split.
    + rewrite !headlines_app, headlines_banner, headlines_turns.
      * rewrite Hlen. destruct (is_none (close_raises w)); simpl;
          rewrite app_nil_r; reflexivity.
      * rewrite Hlen. exact Hall.
    + unfold publish_calls. autorewrite with projections.
      destruct (is_none (close_raises w)); simpl;
        autorewrite with projections; assumption.
Qed.

(** The stub whose second delivery fails, with a count of 3: the
    reports are success, failure, success, and 3 publish calls are
    made. *)
Lemma delivery_error_is_reported_and_skipped_witness :
  connect_raises stub_world = None
  /\ (1 < Z.to_nat 3)%nat
  /\ calm stub_world 3 0 2 = true
  /\ delivery stub_world 1
     = Raised (KafkaError "KafkaTimeoutError: Timeout after waiting for 10 secs.")
  /\ calm stub_world 3 0 3 = true
  /\ (let tr := trace (snd (send_messages 3 0 stub_world init_state)) in
      headlines tr
      = [ "✅ Message 1/3 sent successfully:";
          "❌ Failed to send message 2: KafkaTimeoutError: Timeout after waiting for 10 secs.";
          "✅ Message 3/3 sent successfully:" ]
      /\ publish_calls tr = 3%nat).
Proof.
  split; [reflexivity|]. split; [simpl; lia|]. split; [reflexivity|].
  split; [reflexivity|]. split; [reflexivity|].
  destruct (delivery_error_is_reported_and_skipped stub_world 3 0%float 1
              "KafkaTimeoutError: Timeout after waiting for 10 secs.")
    as [_ Hall]; [reflexivity | simpl; lia | reflexivity | reflexivity |].
  destruct (Hall eq_refl) as [Hh Hp].
  split; [rewrite Hh; reflexivity | exact Hp].
Defined.

(** ** Runs that are cut short *)

(** C9.  If the publish call of message [k] itself raises an error,
    before any future is returned, the handler of the loop does not see
    it: nothing is waited for and no failure line is printed, no further
    message is built or published, and the handler of [main] prints the
    error, after which [main] returns. *)
Theorem submit_error_aborts_the_run (argv : list string) (w : world) (N : Z)
    (D : float) (k : nat) (e : exn) :
  parse_args_from w argv default_namespace = Returned (mk_namespace N D) ->
  connect_raises w = None ->
  (Z.of_nat k < N)%Z ->
  calm w N D k = true ->
  send_raises w k = Some e ->
  is_Exception e = true ->
  exists os c p d,
    List.length os = k
    /\ main argv w init_state
       = (Returned tt,
          mk_state (S k) d (S k) (S k) k
            (banner w N D ++ turns w N D 0 os
             ++ [sent w k k c p; Print (error_line e)])).
Proof.
  intros Hparse Hconn Hk Hcalm Hsend Hexc.
  assert (Hloud : quiet w N D k = false)
    by (unfold quiet; rewrite Hsend; reflexivity).
  destruct (send_messages_cut w N D k Hconn Hk Hcalm Hloud)
    as [os [o [d [e' [pauses [evs [Hlen [Hval [Hvo [Hst Hrun]]]]]]]]]].
  exists os, (fst o), (snd o), d. split; [assumption|].
  rewrite main_unfold, Hparse. cbn [count delay]. rewrite Hrun.
  inversion Hst as [e1 Hs | e1 Hs Hd Hk1 | e1 Hs He Hlt Hsl]; subst;
    try congruence.
  assert (e' = e) by congruence. subst e'.
  destruct e; try discriminate;
    cbn [is_KeyboardInterrupt is_Exception]; unfold logs, error_line;
    cbn [clock_reads draws now_reads submits naps trace];
    rewrite <- !app_assoc; reflexivity.
Qed.

(** The second publish call of a run of three raises a
    [KafkaTimeoutError]. *)
Lemma submit_error_aborts_the_run_witness :
  parse_args_from broken_send_world ["--count"; "3"] default_namespace
  = Returned (mk_namespace 3 2)
  /\ calm broken_send_world 3 2 1 = true
  /\ exists os c p d,
       List.length os = 1%nat
       /\ main ["--count"; "3"] broken_send_world init_state
          = (Returned tt,
             mk_state 2 d 2 2 1
               (banner broken_send_world 3 2 ++ turns broken_send_world 3 2 0 os
                ++ [sent broken_send_world 1 1 c p;
                    Print (error_line (KafkaError
                      "KafkaTimeoutError: Failed to update metadata after 60.0 secs."))])).
Proof.
  split; [reflexivity|]. split; [reflexivity|].
  apply (submit_error_aborts_the_run ["--count"; "3"] broken_send_world 3 2%float 1
           (KafkaError "KafkaTimeoutError: Failed to update metadata after 60.0 secs."));
    [reflexivity | reflexivity | lia | reflexivity | reflexivity | reflexivity].
Defined.

(** C4, as the code has it.  If the pause after message [k] is
    interrupted, no further message is built or published, [main] prints
    the interruption line and returns; on this path the script does not
    close the producer and does not print the completion line. *)
Theorem interrupt_between_turns (argv : list string) (w : world) (N : Z)
    (D : float) (k : nat) :
  parse_args_from w argv default_namespace = Returned (mk_namespace N D) ->
  connect_raises w = None ->
  (Z.of_nat k < N - 1)%Z ->
  calm w N D k = true ->
  send_raises w k = None ->
  escapes w k = None ->
  pause_raises w D k = Some KeyboardInterrupt ->
  exists os o d,
    List.length os = k
    /\ main argv w init_state
       = (Returned tt,
          mk_state (S k) d (S k) (S k) (S k)
            (banner w N D ++ turns w N D 0 os
             ++ sent w k k (fst o) (snd o)
             :: attempt_events w N (Z.of_nat k) k (order_id_at w k) (fst o) (snd o)
             ++ [Sleep D; Print interrupted_line]))
    /\ ~ In Close (trace (snd (main argv w init_state)))
    /\ ~ In (Print all_sent_line) (trace (snd (main argv w init_state))).
Proof.
  intros Hparse Hconn Hk Hcalm Hsend Hesc Hsleep.
  assert (Hloud : quiet w N D k = false).
  { unfold quiet. rewrite Hsend, Hesc. simpl.
    destruct (Z.ltb_spec (Z.of_nat k) (N - 1)); [|lia].
    rewrite Hsleep. reflexivity. }
  destruct (send_messages_cut w N D k Hconn ltac:(lia) Hcalm Hloud)
    as [os [o [d [e' [pauses [evs [Hlen [Hval [Hvo [Hst Hrun]]]]]]]]]].
  assert (Hmain : main argv w init_state
       = (Returned tt,
          mk_state (S k) d (S k) (S k) (S k)
            (banner w N D ++ turns w N D 0 os
             ++ sent w k k (fst o) (snd o)
             :: attempt_events w N (Z.of_nat k) k (order_id_at w k) (fst o) (snd o)
             ++ [Sleep D; Print interrupted_line]))).
  { rewrite main_unfold, Hparse. cbn [count delay]. rewrite Hrun.
    inversion Hst as [e1 Hs | e1 Hs Hd Hk1 | e1 Hs He Hlt Hsl]; subst.
    - congruence.
    - unfold escapes in Hesc. rewrite Hd, Hk1 in Hesc. discriminate.
    - assert (e' = KeyboardInterrupt) by congruence. subst e'.
      cbn [is_KeyboardInterrupt]. unfold logs, turn_events, pause_events.
      cbn [clock_reads draws now_reads submits naps trace].
      destruct (Z.ltb_spec (Z.of_nat (List.length os)) (N - 1)); [|lia].
      rewrite <- !app_assoc, <- app_comm_cons, <- app_assoc. reflexivity. }
  exists os, o, d. split; [assumption|]. split; [exact Hmain|].
  rewrite Hmain. cbn [snd trace].
  assert (G : forall e,
             In e (banner w N D ++ turns w N D 0 os
                   ++ sent w k k (fst o) (snd o)
                   :: attempt_events w N (Z.of_nat k) k (order_id_at w k)
                        (fst o) (snd o)
                   ++ [Sleep D; Print interrupted_line]) ->
             e <> Close /\ e <> Print all_sent_line).
  { intros e H. apply in_app_or in H. destruct H as [H|H];
      [exact (banner_event_not_final _ _ _ _ H)|].
    apply in_app_or in H. destruct H as [H|H];
      [exact (turns_event_not_final _ _ _ _ _ _ H)|].
    rewrite app_comm_cons in H. apply in_app_or in H. destruct H as [H|H].
    - apply (turn_event_not_final w N D k o). unfold turn_events.
      rewrite app_comm_cons. apply in_or_app. left. exact H.
    - destruct H as [H|[H|[]]]; subst e; split; discriminate. }
  split; intros H; apply G in H; destruct H as [H1 H2]; congruence.
Qed.

(** The first pause of a run of two messages is interrupted. *)
Lemma interrupt_between_turns_witness :
  parse_args_from interrupt_world ["--count"; "2"] default_namespace
  = Returned (mk_namespace 2 2)
  /\ pause_raises interrupt_world 2 0 = Some KeyboardInterrupt
  /\ exists os o d,
       List.length os = 0%nat
       /\ main ["--count"; "2"] interrupt_world init_state
          = (Returned tt,
             mk_state 1 d 1 1 1
               (banner interrupt_world 2 2 ++ turns interrupt_world 2 2 0 os
                ++ sent interrupt_world 0 0 (fst o) (snd o)
                :: attempt_events interrupt_world 2 0 0
                     (order_id_at interrupt_world 0) (fst o) (snd o)
                ++ [Sleep 2; Print interrupted_line]))
       /\ ~ In Close (trace (snd (main ["--count"; "2"] interrupt_world init_state)))
       /\ ~ In (Print all_sent_line)
               (trace (snd (main ["--count"; "2"] interrupt_world init_state))).
Proof.
  split; [reflexivity|]. split; [reflexivity|].
  apply (interrupt_between_turns ["--count"; "2"] interrupt_world 2 2%float 0);
    [reflexivity | reflexivity | lia | reflexivity | reflexivity
     | reflexivity | reflexivity].
Defined.

(** C4, as stated, fails: when the first pause of a run of two
    messages is interrupted, the loop does stop before the second build,
    but the producer is never closed. *)
Lemma interrupted_run_leaves_producer_open :
  sleep_raises interrupt_world 0 = Some KeyboardInterrupt
  /\ ~ (clock_reads (snd (main ["--count"; "2"] interrupt_world init_state)) = 1%nat
        /\ In Close (trace (snd (main ["--count"; "2"] interrupt_world init_state)))).
Proof.
  split; [reflexivity|]. intros [_ H].
  vm_compute in H.
  repeat (destruct H as [H|H]; [discriminate|]).
  exact H.
Qed.

(** ** The command line *)

Lemma main_pacing (argv : list string) (w : world) (N : Z) (D : float) :
  parse_args_from w argv default_namespace = Returned (mk_namespace N D) ->
  pacing (trace (snd (main argv w init_state)))
  = pacing (trace (snd (send_messages N D w init_state)))
  /\ publish_calls (trace (snd (main argv w init_state)))
     = publish_calls (trace (snd (send_messages N D w init_state))).
Proof.
  intros Hparse.
  destruct (main_trace argv w init_state N D Hparse) as [lines ->].
  unfold publish_calls. autorewrite with projections.
  split; reflexivity.
Qed.

(** The decimal literals that [int_of_str] reads are digits, after a
    minus sign or not: [argparse] takes them for values, and they hold
    no letter and no point. *)
Lemma uint_of_char_digit (c : ascii) (d : option uint) (r : uint) :
  uint_of_char c d = Some r ->
  is_digit c = true /\ is_letter_or_point c = false /\ Ascii.eqb c "-" = false.
Proof.
  destruct d as [d|]; [|discriminate].
  destruct c as [[] [] [] [] [] [] [] []]; cbn; intros H;
    try discriminate; repeat split; reflexivity.
Qed.

Lemma uint_of_string_digits (s : string) :
  forall r,
    NilEmpty.uint_of_string s = Some r ->
    all_digits s = true /\ has_letter_or_point s = false.
Proof.
  induction s as [|c s IH]; intros r H; [split; reflexivity|].
  cbn [NilEmpty.uint_of_string] in H.
  destruct (uint_of_char_digit c _ r H) as [Hd [Hl _]].
  destruct (NilEmpty.uint_of_string s) as [r'|]; [|discriminate].
  destruct (IH r' eq_refl) as [Ha Hn].
  cbn [all_digits has_letter_or_point]. rewrite Hd, Hl, Ha, Hn.
  split; reflexivity.
Qed.

Lemma int_literal (v : string) (n : Z) :
  int_of_str v = Some n ->
  plain_argument v = true /\ has_letter_or_point v = false.
Proof.
  unfold int_of_str, NilZero.int_of_string.
  destruct v as [|c v]; [discriminate|].
  destruct (Ascii.eqb_spec c "-") as [->|Hc].
  - unfold NilZero.uint_of_string.
    destruct v as [|c' v']; [discriminate|].
    destruct (NilEmpty.uint_of_string (String c' v')) as [r|] eqn:E;
      [|discriminate].
    intros _. destruct (uint_of_string_digits _ r E) as [Ha Hn].
    split.
    + unfold plain_argument, negative_number, digits.
      rewrite Ha. reflexivity.
    + cbn [has_letter_or_point] in Hn |- *. rewrite Hn. reflexivity.
  - unfold NilZero.uint_of_string.
    destruct (NilEmpty.uint_of_string (String c v)) as [r|] eqn:E;
      [|discriminate].
    intros _. destruct (uint_of_string_digits _ r E) as [_ Hn].
    split; [|exact Hn].
    unfold plain_argument.
    destruct (Ascii.eqb_spec c "-"); [contradiction|reflexivity].
Qed.

(** The conversion of the value of each option. *)
Lemma convert_count (w : world) (v : string) (n : Z) (rest : list string)
    (ns : namespace) :
  int_of_str v = Some n ->
  (String.length v <= 640)%nat ->
  convert_pairs w ("--count" :: v :: rest) ns
  = convert_pairs w rest (mk_namespace n (delay ns)).
Proof.
  intros Hv Hlen. cbn [convert_pairs]. rewrite Hv.
  change (String.eqb "--count" "--count") with true. cbv iota.
  destruct (Nat.leb_spec (String.length v) 640); [reflexivity|lia].
Qed.

Lemma convert_delay (w : world) (u : string) (x : float) (rest : list string)
    (ns : namespace) :
  float_of_str w u = Some x ->
  convert_pairs w ("--delay" :: u :: rest) ns
  = convert_pairs w rest (mk_namespace (count ns) x).
Proof.
  intros Hu. cbn [convert_pairs]. rewrite Hu. reflexivity.
Qed.

(** C8.  Without flags the count is 10 and the delay 2.0.  [--count]
    takes the integer that [int] reads in its value, and a value with a
    letter or a point, which is no integer, is refused; [--delay] takes
    the float that [float] reads in its value, and a value that [float]
    does not read is refused; the two options can be given together, in
    any order.  (The values are those that [argparse] takes for values:
    they do not begin with [-], or they look like negative numbers.)  A
    run without flags in which every turn is quiet publishes 10 messages
    with a pause of 2.0 seconds between two of them. *)
Theorem cli_flags (w : world) (v u : string) (n : Z) (x : float) :
  int_of_str v = Some n ->
  (String.length v <= 640)%nat ->
  plain_argument u = true ->
  float_of_str w u = Some x ->
  connect_raises w = None ->
  calm w 10 2 10 = true ->
  parse_args_from w [] default_namespace = Returned (mk_namespace 10 2)
  /\ parse_args_from w ["--count"; v] default_namespace
     = Returned (mk_namespace n 2)
  /\ parse_args_from w ["--delay"; u] default_namespace
     = Returned (mk_namespace 10 x)
  /\ parse_args_from w ["--count"; v; "--delay"; u] default_namespace
     = Returned (mk_namespace n x)
  /\ parse_args_from w ["--delay"; u; "--count"; v] default_namespace
     = Returned (mk_namespace n x)
  /\ (forall t, plain_argument t = true -> has_letter_or_point t = true ->
                 parse_args_from w ["--count"; t] default_namespace
                 = Raised (SystemExit 2))
  /\ (forall t, plain_argument t = true -> float_of_str w t = None ->
                 parse_args_from w ["--delay"; t] default_namespace
                 = Raised (SystemExit 2))
  /\ let tr := trace (snd (main [] w init_state)) in
     pacing tr = paced 2 10
     /\ publish_calls tr = 10%nat
     /\ sleep_calls tr = 9%nat.
Proof.
  intros Hv Hlen Hplain Hu Hconn Hcalm.
  destruct (int_literal v n Hv) as [Hvplain _].
  split; [reflexivity|].
  unfold parse_args_from. cbn [option_pairs].
  change (String.eqb "--count" "--count") with true.
  change (String.eqb "--delay" "--count") with false.
  change (String.eqb "--delay" "--delay") with true.
  rewrite Hplain, Hvplain. cbn [orb andb].
  split; [rewrite (convert_count w v n) by assumption; reflexivity|].
  split; [rewrite (convert_delay w u x) by assumption; reflexivity|].
  split.
  { rewrite (convert_count w v n), (convert_delay w u x) by assumption.
    reflexivity. }
  split.
  { rewrite (convert_delay w u x), (convert_count w v n) by assumption.
    reflexivity. }
  split.
  { intros t Ht Hl. rewrite Ht. cbn [convert_pairs].
    change (String.eqb "--count" "--count") with true. cbv iota.
    destruct (int_of_str t) as [m|] eqn:E; [|rewrite Hl; reflexivity].
    destruct (int_literal t m E) as [_ Hn]. congruence. }
  split.
  { intros t Ht Hf. rewrite Ht. cbn [convert_pairs]. rewrite Hf.
    reflexivity. }
  set (tr := trace (snd (main [] w init_state))).
  destruct (main_pacing [] w 10 2%float eq_refl) as [Hp Hs].
  destruct (pacing_of_calm_run w 10 2%float ltac:(lia) Hconn Hcalm) as [Hp' Hs'].
  fold tr in Hp, Hs. rewrite Hp' in Hp. rewrite Hs' in Hs.
  split; [exact Hp|]. split; [exact Hs|].
  unfold sleep_calls. rewrite Hp. reflexivity.
Qed.

(** The steady world, [--count 25 --delay 0.5], a count of [2.5], and a
    run without flags. *)
Lemma cli_flags_witness :
  int_of_str "25" = Some 25%Z
  /\ plain_argument "0.5" = true
  /\ float_of_str steady_world "0.5" = Some 0.5%float
  /\ connect_raises steady_world = None
  /\ calm steady_world 10 2 10 = true
  /\ parse_args_from steady_world ["--count"; "25"; "--delay"; "0.5"]
       default_namespace
     = Returned (mk_namespace 25 0.5)
  /\ parse_args_from steady_world ["--count"; "2.5"] default_namespace
     = Raised (SystemExit 2)
  /\ publish_calls (trace (snd (main [] steady_world init_state))) = 10%nat
  /\ sleep_calls (trace (snd (main [] steady_world init_state))) = 9%nat.
Proof.
  split; [reflexivity|]. split; [reflexivity|]. split; [reflexivity|].
  split; [reflexivity|]. split; [reflexivity|].
  destruct (cli_flags steady_world "25" "0.5" 25 0.5%float)
    as [_ [_ [_ [H4 [_ [H6 [_ [_ [H8 H9]]]]]]]]];
    [reflexivity | simpl; lia | reflexivity | reflexivity | reflexivity
     | reflexivity |].
  split; [exact H4|]. split; [apply H6; reflexivity|].
  split; [exact H8 | exact H9].
Defined.

(** * Further properties of the script *)

(** ** Every run *)

Lemma send_messages_ends (w : world) (num_messages : Z) (delay_seconds : float) :
  run_end w num_messages delay_seconds
    (send_messages num_messages delay_seconds w init_state).
Proof.
  rewrite send_messages_unfold.
  destruct (connect_raises w) as [e|] eqn:Hconn;
    [apply end_unconnected; assumption|].
  pose proof (loop_outcome w num_messages delay_seconds) as H.
  destruct (for_each _ _ w _) as [[[]|e] s'].
  - pose proof H as [Hcalm [os [d [Hlen [Hval ->]]]]].
    replace (match close_raises w with
             | Some e => (Raised e, logs [Close] _)
             | None => (Returned tt, logs [Close; Print all_sent_line] _)
             end)
      with (answer (close_raises w),
            mk_state (Z.to_nat num_messages) d (Z.to_nat num_messages)
              (Z.to_nat num_messages)
              (Nat.min (Z.to_nat num_messages) (Z.to_nat num_messages - 1))
              (banner w num_messages delay_seconds
               ++ turns w num_messages delay_seconds 0 os
               ++ Close :: if is_none (close_raises w)
                           then [Print all_sent_line] else [])).
    + apply end_complete; assumption.
    + destruct (close_raises w); unfold logs, answer;
        cbn [clock_reads draws now_reads submits naps trace is_none];
        rewrite <- app_assoc; reflexivity.
  - destruct H as [k [os [o [d [pauses [evs
        [Hk [Hcalm [Hlen [Hval [Hvo [Hst ->]]]]]]]]]]]].
    apply (end_cut w num_messages delay_seconds k os o d e pauses evs);
      assumption.
Qed.

Lemma main_after (argv : list string) (w : world) (s : state)
    (num_messages : Z) (delay_seconds : float) :
  parse_args_from w argv default_namespace
  = Returned (mk_namespace num_messages delay_seconds) ->
  main argv w s
  = (main_end (fst (send_messages num_messages delay_seconds w s)),
     logs (map Print (last_words (fst (send_messages num_messages delay_seconds w s))))
          (snd (send_messages num_messages delay_seconds w s))).
Proof.
  intros Hparse. rewrite main_unfold, Hparse. cbn [count delay].
  destruct (send_messages num_messages delay_seconds w s) as [[[]|e] s'];
    cbn [fst snd main_end last_words map].
  - unfold logs. rewrite app_nil_r. destruct s'; reflexivity.
  - destruct (is_KeyboardInterrupt e); [reflexivity|].
    destruct (is_Exception e); [reflexivity|].
    cbn [orb map]. unfold logs. rewrite app_nil_r. destruct s'; reflexivity.
Qed.

(** ** Failures of the producer outside the wait *)

(** X3.  If the producer cannot be created (no broker answers, say),
    nothing else happens: no banner, no record, no publish call;
    [main] prints the error and returns. *)
Theorem no_producer_no_run (argv : list string) (w : world) (N : Z) (D : float)
    (e : exn) :
  parse_args_from w argv default_namespace = Returned (mk_namespace N D) ->
  connect_raises w = Some e ->
  is_Exception e = true ->
  main argv w init_state
  = (Returned tt,
     mk_state 0 0 0 0 0
       [Connect KAFKA_BOOTSTRAP_SERVERS; Print (error_line e)]).
Proof.
  intros Hparse Hconn Hexc.
  rewrite (main_after argv w init_state N D Hparse).
  rewrite send_messages_unfold, Hconn. cbn [fst snd main_end last_words].
  destruct e; try discriminate; reflexivity.
Qed.

Lemma no_producer_no_run_witness :
  connect_raises no_broker_world = Some (KafkaError "NoBrokersAvailable")
  /\ main ["--count"; "3"] no_broker_world init_state
     = (Returned tt,
        mk_state 0 0 0 0 0
          [Connect KAFKA_BOOTSTRAP_SERVERS;
           Print (error_line (KafkaError "NoBrokersAvailable"))]).
Proof.
  split; [reflexivity|].
  apply (no_producer_no_run ["--count"; "3"] no_broker_world 3 2%float
           (KafkaError "NoBrokersAvailable"));
    reflexivity.
Defined.

(** X4.  If the wait for message [k] raises something that is not a
    delivery error (an interrupt during the wait, or another exception),
    the handler of the loop lets it through: no report of message [k] is
    printed, no pause is made, no further record is built, the producer
    is not closed, and [main] prints its line, for an interrupt or for
    an error, and returns. *)
Theorem wait_raising_leaves_the_loop (argv : list string) (w : world) (N : Z)
    (D : float) (k : nat) (e : exn) :
  parse_args_from w argv default_namespace = Returned (mk_namespace N D) ->
  connect_raises w = None ->
  (Z.of_nat k < N)%Z ->
  calm w N D k = true ->
  send_raises w k = None ->
  delivery w k = Raised e ->
  is_KafkaError e = false ->
  (is_KeyboardInterrupt e || is_Exception e)%bool = true ->
  exists os c p d,
    List.length os = k
    /\ main argv w init_state
       = (Returned tt,
          mk_state (S k) d (S k) (S k) k
            (banner w N D ++ turns w N D 0 os
             ++ [sent w k k c p; Get k 10;
                 Print (if is_KeyboardInterrupt e then interrupted_line
                        else error_line e)])).
Proof.
  intros Hparse Hconn Hk Hcalm Hsend Hd Hnk Hcaught.
  assert (Hloud : quiet w N D k = false)
    by (unfold quiet, escapes; rewrite Hsend, Hd, Hnk; reflexivity).
  destruct (send_messages_cut w N D k Hconn Hk Hcalm Hloud)
    as [os [o [d [e' [pauses [evs [Hlen [Hval [Hvo [Hst Hrun]]]]]]]]]].
  exists os, (fst o), (snd o), d. split; [assumption|].
  rewrite (main_after argv w init_state N D Hparse), Hrun.
  cbn [fst snd main_end last_words].
  inversion Hst as [e1 Hs | e1 Hs Hd1 Hk1 | e1 Hs He Hlt Hsl].
  - congruence.
  - assert (e' = e) by congruence. subst e' e1 pauses evs.
    rewrite Hcaught.
    destruct (is_KeyboardInterrupt e) eqn:HKI; cbn [orb] in Hcaught.
    + unfold logs. cbn [map clock_reads draws now_reads submits naps trace].
      rewrite <- !app_assoc. reflexivity.
    + rewrite Hcaught. unfold logs.
      cbn [map clock_reads draws now_reads submits naps trace].
      rewrite <- !app_assoc. reflexivity.
  - unfold escapes in He. rewrite Hd, Hnk in He. discriminate.
Qed.

(** An operator interrupts the wait for the second message of three. *)
Lemma wait_raising_leaves_the_loop_witness :
  let w := steady_but (fun _ => None)
             (fun k => if Nat.eqb k 1 then Raised KeyboardInterrupt
                       else Returned (mk_metadata "orders" 0 (Z.of_nat k)))
             (fun _ => None) in
  calm w 3 2 1 = true
  /\ delivery w 1 = Raised KeyboardInterrupt
  /\ exists os c p d,
       List.length os = 1%nat
       /\ main ["--count"; "3"] w init_state
          = (Returned tt,
             mk_state 2 d 2 2 1
               (banner w 3 2 ++ turns w 3 2 0 os
                ++ [sent w 1 1 c p; Get 1 10; Print interrupted_line])).
Proof.
  intros w. split; [reflexivity|]. split; [reflexivity|].
  apply (wait_raising_leaves_the_loop ["--count"; "3"] w 3 2%float 1
           KeyboardInterrupt);
    [reflexivity | reflexivity | lia | reflexivity | reflexivity
     | reflexivity | reflexivity | reflexivity].
Defined.

(** X5.  If closing the producer raises an error after a run whose
    turns were all quiet, the completion line is not printed; [main]
    prints the error and returns. *)
Theorem close_raising_hides_completion (argv : list string) (w : world)
    (N : Z) (D : float) (e : exn) :
  parse_args_from w argv default_namespace = Returned (mk_namespace N D) ->
  connect_raises w = None ->
  calm w N D (Z.to_nat N) = true ->
  close_raises w = Some e ->
  is_Exception e = true ->
  exists os d,
    List.length os = Z.to_nat N
    /\ main argv w init_state
       = (Returned tt,
          mk_state (Z.to_nat N) d (Z.to_nat N) (Z.to_nat N)
            (Nat.min (Z.to_nat N) (Z.to_nat N - 1))
            (banner w N D ++ turns w N D 0 os
             ++ [Close; Print (error_line e)])).
Proof.
  intros Hparse Hconn Hcalm Hclose Hexc.
  destruct (send_messages_calm w N D Hconn Hcalm)
    as [os [d [Hlen [Hval Hrun]]]].
  exists os, d. split; [assumption|].
  rewrite (main_after argv w init_state N D Hparse), Hrun, Hclose.
  cbn [fst snd answer main_end last_words is_none].
  destruct e; try discriminate;
    cbn [is_KeyboardInterrupt is_Exception orb map]; unfold logs;
    cbn [clock_reads draws now_reads submits naps trace];
    rewrite <- !app_assoc; reflexivity.
Qed.

Lemma close_raising_hides_completion_witness :
  calm failing_close_world 2 2 2 = true
  /\ exists os d,
       List.length os = 2%nat
       /\ main ["--count"; "2"] failing_close_world init_state
          = (Returned tt,
             mk_state 2 d 2 2 1
               (banner failing_close_world 2 2
                ++ turns failing_close_world 2 2 0 os
                ++ [Close;
                    Print (error_line
                             (KafkaError "KafkaTimeoutError: Failed to flush"))])).
Proof.
  split; [reflexivity|].
  apply (close_raising_hides_completion ["--count"; "2"] failing_close_world
           2 2%float (KafkaError "KafkaTimeoutError: Failed to flush"));
    reflexivity.
Defined.

(** ** The record builder *)

(** X1.  Building a record reads the clock once and [datetime.now()]
    once, draws two numbers and one more for each product, and touches
    neither the producer nor the console; the order id it returns is the
    [orderId] of the message and the [timestamp] is the reading of
    [datetime.now()]. *)
Theorem builder_effects (w : world) (s : state) :
  exists order_id message s' product_ids,
    create_order_message w s = (Returned (order_id, message), s')
    /\ dict_get message "orderId" = Some (PStr order_id)
    /\ dict_get message "timestamp" = Some (PStr (now_iso w (now_reads s)))
    /\ dict_get message "productIds" = Some (PList (map PStr product_ids))
    /\ clock_reads s' = S (clock_reads s)
    /\ now_reads s' = S (now_reads s)
    /\ draws s' = (draws s + 2 + List.length product_ids)%nat
    /\ submits s' = submits s
    /\ naps s' = naps s
    /\ trace s' = trace s.
Proof.
  unfold create_order_message.
  unfold bind at 1. unfold time_time_ms at 1.
  set (s1 := mk_state (S (clock_reads s)) _ _ _ _ _).
  unfold bind at 1.
  destruct (random_choice_spec CUSTOMER_IDS w s1) as [c [-> Hc]];
    [discriminate|].
  unfold bind at 1.
  destruct (random_randint_spec 1 3 w (with_draws s1 (S (draws s1))))
    as [k [-> Hk]]; [lia|].
  set (s3 := with_draws (with_draws s1 _) _).
  unfold bind at 1.
  destruct (random_sample_spec PRODUCT_IDS k w s3 NoDup_PRODUCT_IDS)
    as [pids [-> [Hl [Hnd Hinc]]]]; [simpl; lia|].
  do 3 eexists. exists pids. split; [reflexivity|].
  cbn. repeat split; try reflexivity. lia.
Qed.

(** ** What holds of every run *)

Lemma rounds (num_messages : Z) (delay_seconds : float) (k : nat) :
  forall a,
    (Z.of_nat (a + k) <= num_messages - 1)%Z ->
    flat_map (turn_pacing num_messages delay_seconds) (seq a k)
    = List.concat (repeat [Publish; Pause delay_seconds] k).
Proof.
  induction k as [|k IH]; intros a Ha; [reflexivity|].
  cbn [seq flat_map repeat List.concat]. rewrite IH by lia.
  unfold turn_pacing at 1.
  destruct (Z.ltb_spec (Z.of_nat a) (num_messages - 1)); [reflexivity|lia].
Qed.

Lemma flat_map_paced (num_messages : Z) (delay_seconds : float) :
  flat_map (turn_pacing num_messages delay_seconds)
           (seq 0 (Z.to_nat num_messages))
  = paced delay_seconds (Z.to_nat num_messages).
Proof.
  destruct (Z.to_nat num_messages) as [|m] eqn:Hm; [reflexivity|].
  apply rounds_then_last. lia.
Qed.

Lemma count_pauses_concat (d : float) (k : nat) (tail : list step) :
  List.length (filter is_Pause
                 (List.concat (repeat [Publish; Pause d] k) ++ tail))
  = (k + List.length (filter is_Pause tail))%nat.
Proof.
  induction k as [|k IH]; [reflexivity|].
  cbn [repeat List.concat]. simpl. rewrite IH. reflexivity.
Qed.

Lemma pacing_stopped (w : world) (num_messages : Z) (delay_seconds : float)
    (k : nat) (o : choice) (e : exn) (pauses : nat) (evs : list event) :
  stopped w num_messages delay_seconds k o e pauses evs ->
  (pacing evs = [Publish] /\ pauses = k)
  \/ (pacing evs = [Publish; Pause delay_seconds] /\ pauses = S k
      /\ (Z.of_nat k < num_messages - 1)%Z).
Proof.
  intros [e' Hs | e' Hs Hd Hk | e' Hs He Hlt Hsl].
  - left. split; reflexivity.
  - left. split; reflexivity.
  - right. rewrite pacing_turn. unfold turn_pacing.
    destruct (Z.ltb_spec (Z.of_nat k) (num_messages - 1)); [|lia].
    repeat split. assumption.
Qed.

(** X7.  In every run, complete or cut short by whatever exception,
    the publish calls and the pauses are an initial segment of
    publish, pause of [D], publish, ..., publish with [N] publish calls:
    never more than [N] publish calls, never two of them without a pause
    of [D] between them, never a pause after the last.  Every record
    that was built has been given to the producer, once. *)
Theorem every_run_is_paced (argv : list string) (w : world) (N : Z)
    (D : float) :
  parse_args_from w argv default_namespace = Returned (mk_namespace N D) ->
  let s' := snd (main argv w init_state) in
  (exists rest, paced D (Z.to_nat N) = (pacing (trace s') ++ rest)%list)
  /\ clock_reads s' = publish_calls (trace s')
  /\ now_reads s' = publish_calls (trace s')
  /\ submits s' = publish_calls (trace s')
  /\ naps s' = sleep_calls (trace s')
  /\ (publish_calls (trace s') <= Z.to_nat N)%nat
  /\ (sleep_calls (trace s') <= Z.to_nat N - 1)%nat.
Proof.
  intros Hparse s'. subst s'.
  rewrite (main_after argv w init_state N D Hparse). cbn [snd].
  unfold sleep_calls, publish_calls, logs.
  cbn [clock_reads now_reads submits naps trace].
  rewrite !pacing_app, !sends_app, pacing_prints, sends_prints, !app_nil_r.
  destruct (send_messages_ends w N D)
    as [e Hconn | os d Hconn Hcalm Hlen Hval
        | k os o d e pauses evs Hconn Hk Hcalm Hlen Hval Hvo Hst];
    cbn [snd clock_reads now_reads submits naps trace].
  - unfold logs, init_state. simpl.
    split; [exists (paced D (Z.to_nat N)); reflexivity|].
    repeat split; lia.
  - assert (Hp : pacing (banner w N D ++ turns w N D 0 os
                         ++ Close :: (if is_none (close_raises w)
                                      then [Print all_sent_line] else []))
                 = paced D (Z.to_nat N)).
    { autorewrite with projections. rewrite Hlen, flat_map_paced.
      destruct (is_none (close_raises w)); simpl; apply app_nil_r. }
    assert (Hs : List.length
                   (sends (banner w N D ++ turns w N D 0 os
                           ++ Close :: (if is_none (close_raises w)
                                        then [Print all_sent_line] else [])))
                 = Z.to_nat N).
    { autorewrite with projections.
      destruct (is_none (close_raises w)); simpl;
        autorewrite with projections; assumption. }
    rewrite Hp, Hs.
    split; [exists []; symmetry; apply app_nil_r|].
    assert (Hc : List.length (filter is_Pause (paced D (Z.to_nat N)))
                 = Nat.min (Z.to_nat N) (Z.to_nat N - 1)).
    { destruct (Z.to_nat N) as [|m]; [reflexivity|].
      unfold paced. rewrite count_pauses_rounds. lia. }
    rewrite Hc. repeat split; lia.
  - assert (Hturns : pacing (turns w N D 0 os)
                     = List.concat (repeat [Publish; Pause D] k)).
    { rewrite pacing_turns, Hlen. apply rounds. lia. }
    assert (Hp : pacing (banner w N D ++ turns w N D 0 os ++ evs)
                 = (List.concat (repeat [Publish; Pause D] k) ++ pacing evs)%list).
    { rewrite !pacing_app, pacing_banner, Hturns. reflexivity. }
    assert (Hs : List.length (sends (banner w N D ++ turns w N D 0 os ++ evs))
                 = S k).
    { rewrite !sends_app, sends_banner, sends_turns,
        (sends_stopped _ _ _ _ _ _ _ _ Hst).
      rewrite !length_app, length_publishes. simpl. lia. }
    rewrite Hp, Hs, count_pauses_concat.
    assert (Hfull : paced D (Z.to_nat N)
                    = (List.concat (repeat [Publish; Pause D] k)
                       ++ turn_pacing N D k
                       ++ flat_map (turn_pacing N D)
                            (seq (S k) (Z.to_nat N - S k)))%list).
    { rewrite <- flat_map_paced.
      replace (Z.to_nat N) with (k + S (Z.to_nat N - S k))%nat at 1 by lia.
      rewrite seq_app, flat_map_app. cbn [seq flat_map Nat.add].
      rewrite (rounds N D k 0) by lia. reflexivity. }
    destruct (pacing_stopped _ _ _ _ _ _ _ _ Hst)
      as [[Hev ->] | [Hev [-> Hlt]]]; rewrite Hev.
    + split.
      * rewrite Hfull. unfold turn_pacing. cbn [app].
        eexists. rewrite <- app_assoc. cbn [app]. reflexivity.
      * simpl. repeat split; lia.
    + split.
      * rewrite Hfull. unfold turn_pacing.
        destruct (Z.ltb_spec (Z.of_nat k) (N - 1)); [|lia].
        eexists. rewrite <- app_assoc. cbn [app]. reflexivity.
      * simpl. repeat split; lia.
Qed.

(** A run of three messages whose second publish call raises. *)
Lemma every_run_is_paced_witness :
  parse_args_from broken_send_world ["--count"; "3"] default_namespace
  = Returned (mk_namespace 3 2)
  /\ (let s' := snd (main ["--count"; "3"] broken_send_world init_state) in
      pacing (trace s') = [Publish; Pause 2; Publish]
      /\ (exists rest, paced 2 3 = (pacing (trace s') ++ rest)%list)
      /\ clock_reads s' = publish_calls (trace s')).
Proof.
  split; [reflexivity|].
  destruct (every_run_is_paced ["--count"; "3"] broken_send_world 3 2%float
              eq_refl) as [H1 [H2 _]].
  split; [vm_compute; reflexivity|]. split; [exact H1 | exact H2].
Defined.

Lemma waits_app (a b : list event) : waits (a ++ b) = (waits a ++ waits b)%list.
Proof. apply flat_map_app. Qed.

Lemma waits_prints (lines : list string) : waits (map Print lines) = [].
Proof. induction lines; simpl; auto. Qed.

Lemma waits_turn (w : world) (num_messages : Z) (delay_seconds : float)
    (k : nat) (o : choice) :
  waits (turn_events w num_messages delay_seconds k o) = [(k, 10%Z)].
Proof.
  unfold turn_events, attempt_events, pause_events.
  change (waits (?e :: ?l)) with (waits [e] ++ waits l)%list.
  change (waits (?e :: ?l)) with (waits [e] ++ waits l)%list.
  rewrite waits_app.
  destruct (delivery w k) as [md|e]; [|destruct (is_KafkaError e)];
    destruct (_ <? _)%Z; reflexivity.
Qed.

Lemma waits_turns (w : world) (num_messages : Z) (delay_seconds : float)
    (os : list choice) :
  forall k,
    waits (turns w num_messages delay_seconds k os)
    = map (fun j => (j, 10%Z)) (seq k (List.length os)).
Proof.
  induction os as [|o os IH]; intros k; [reflexivity|].
  cbn [turns List.length seq map]. rewrite waits_app, waits_turn, IH.
  reflexivity.
Qed.

(** X8.  In every run the waits are on the futures of the publish
    calls, in the order of the calls, each once and each with a timeout
    of 10 seconds; every publish call is waited on, but for one that
    raised, which is then the last. *)
Theorem every_publish_is_awaited_once (argv : list string) (w : world)
    (N : Z) (D : float) :
  parse_args_from w argv default_namespace = Returned (mk_namespace N D) ->
  let tr := trace (snd (main argv w init_state)) in
  exists m,
    waits tr = map (fun k => (k, 10%Z)) (seq 0 m)
    /\ (m = publish_calls tr
        \/ (S m = publish_calls tr /\ send_raises w m <> None)).
Proof.
  intros Hparse tr. subst tr.
  rewrite (main_after argv w init_state N D Hparse). cbn [snd].
  unfold publish_calls, logs. cbn [trace].
  rewrite waits_app, sends_app, waits_prints, sends_prints, !app_nil_r.
  destruct (send_messages_ends w N D)
    as [e Hconn | os d Hconn Hcalm Hlen Hval
        | k os o d e pauses evs Hconn Hk Hcalm Hlen Hval Hvo Hst];
    cbn [snd trace].
  - exists 0%nat. split; [reflexivity | left; reflexivity].
  - exists (List.length os).
    rewrite !waits_app, !sends_app, waits_turns, sends_turns, sends_banner.
    split.
    + destruct (is_none (close_raises w)); simpl; apply app_nil_r.
    + left. destruct (is_none (close_raises w)); simpl;
        rewrite app_nil_r, length_publishes; reflexivity.
  - assert (Hs : List.length (sends (banner w N D ++ turns w N D 0 os ++ evs))
                 = S k).
    { rewrite !sends_app, sends_banner, sends_turns,
        (sends_stopped _ _ _ _ _ _ _ _ Hst).
      rewrite !length_app, length_publishes. simpl. lia. }
    rewrite Hs, !waits_app, waits_turns, Hlen.
    change (waits (banner w N D)) with (@nil (nat * Z)). cbn [app].
    destruct Hst as [e' Hs' | e' Hs' Hd Hk1 | e' Hs' He Hlt Hsl].
    + exists k. split; [simpl; apply app_nil_r|].
      right. split; [reflexivity | congruence].
    + exists (S k).
      split; [rewrite seq_S, map_app; reflexivity | left; reflexivity].
    + exists (S k). rewrite waits_turn.
      split; [rewrite seq_S, map_app; reflexivity | left; reflexivity].
Qed.

Lemma every_publish_is_awaited_once_witness :
  parse_args_from broken_send_world ["--count"; "3"] default_namespace
  = Returned (mk_namespace 3 2)
  /\ (let tr := trace (snd (main ["--count"; "3"] broken_send_world
                                 init_state)) in
      exists m,
        waits tr = map (fun k => (k, 10%Z)) (seq 0 m)
        /\ (m = publish_calls tr
            \/ (S m = publish_calls tr
                /\ send_raises broken_send_world m <> None))).
Proof.
  split; [reflexivity|].
  apply (every_publish_is_awaited_once ["--count"; "3"] broken_send_world
           3 2%float).
  reflexivity.
Defined.

(** ** The completion line *)

Lemma last_words_not_final (r : outcome unit) (line : string) :
  In line (last_words r) -> line <> all_sent_line.
Proof.
  destruct r as [u|e]; cbn [last_words]; [intros []|].
  destruct (is_KeyboardInterrupt e).
  - intros [<-|[]]. discriminate.
  - destruct (is_Exception e); [|intros []].
    intros [<-|[]]. unfold error_line. discriminate.
Qed.

Lemma stopped_events_of_turn (w : world) (num_messages : Z)
    (delay_seconds : float) (k : nat) (o : choice) (e : exn) (pauses : nat)
    (evs : list event) (x : event) :
  stopped w num_messages delay_seconds k o e pauses evs ->
  In x evs -> In x (turn_events w num_messages delay_seconds k o).
Proof.
  intros [e' Hs | e' Hs Hd Hk | e' Hs He Hlt Hsl] Hx.
  - destruct Hx as [<-|[]]. left. reflexivity.
  - unfold turn_events, attempt_events.
    destruct Hx as [<-|[<-|[]]]; [left; reflexivity|].
    right. left. reflexivity.
  - exact Hx.
Qed.

(** X9.  The completion line is printed exactly when the producer was
    created, every turn was quiet and the producer was closed: a publish
    call or a pause that raises, a wait that raises something else than
    a delivery error, or a failing [close] suppress it, whereas delivery
    errors, which the loop reports and skips, do not. *)
Theorem completion_line_iff (argv : list string) (w : world) (N : Z)
    (D : float) :
  parse_args_from w argv default_namespace = Returned (mk_namespace N D) ->
  In (Print all_sent_line) (trace (snd (main argv w init_state)))
  <-> (connect_raises w = None
       /\ calm w N D (Z.to_nat N) = true
       /\ close_raises w = None).
Proof.
  intros Hparse.
  rewrite (main_after argv w init_state N D Hparse). cbn [snd].
  unfold logs. cbn [trace].
  assert (Hwords : forall r, ~ In (Print all_sent_line) (map Print (last_words r))).
  { intros r H. apply in_map_iff in H. destruct H as [l [E Hl]].
    injection E as ->. exact (last_words_not_final r _ Hl eq_refl). }
  destruct (send_messages_ends w N D)
    as [e Hconn | os d Hconn Hcalm Hlen Hval
        | k os o d e pauses evs Hconn Hk Hcalm Hlen Hval Hvo Hst];
    cbn [fst snd trace]; split.
  - intros H. apply in_app_or in H. destruct H as [H|H].
    + destruct H as [H|[]]. discriminate.
    + destruct (Hwords _ H).
  - intros [H _]. congruence.
  - intros H. split; [assumption|]. split; [assumption|].
    destruct (close_raises w) as [e|]; [exfalso|reflexivity].
    apply in_app_or in H. destruct H as [H|H]; [|exact (Hwords _ H)].
    apply in_app_or in H. destruct H as [H|H];
      [exact (proj2 (banner_event_not_final _ _ _ _ H) eq_refl)|].
    apply in_app_or in H. destruct H as [H|H];
      [exact (proj2 (turns_event_not_final _ _ _ _ _ _ H) eq_refl)|].
    destruct H as [H|[]]. discriminate.
  - intros [_ [_ Hclose]]. rewrite Hclose. cbn [is_none].
    apply in_or_app. left. apply in_or_app. right. apply in_or_app. right.
    right. left. reflexivity.
  - intros H. exfalso.
    apply in_app_or in H. destruct H as [H|H]; [|exact (Hwords _ H)].
    apply in_app_or in H. destruct H as [H|H];
      [exact (proj2 (banner_event_not_final _ _ _ _ H) eq_refl)|].
    apply in_app_or in H. destruct H as [H|H];
      [exact (proj2 (turns_event_not_final _ _ _ _ _ _ H) eq_refl)|].
    apply (stopped_events_of_turn _ _ _ _ _ _ _ _ _ Hst) in H.
    exact (proj2 (turn_event_not_final _ _ _ _ _ _ H) eq_refl).
  - intros [_ [Hall _]]. exfalso.
    pose proof (stopped_not_quiet _ _ _ _ _ _ _ _ Hst) as Hq.
    rewrite (calm_quiet w N D (Z.to_nat N) k Hall) in Hq; [discriminate|lia].
Qed.

(** The completion line is there in the run of the stub whose second
    delivery fails. *)
Lemma completion_line_iff_witness :
  parse_args_from stub_world ["--count"; "3"] default_namespace
  = Returned (mk_namespace 3 2)
  /\ In (Print all_sent_line)
        (trace (snd (main ["--count"; "3"] stub_world init_state))).
Proof.
  split; [reflexivity|].
  apply (completion_line_iff ["--count"; "3"] stub_world 3 2%float eq_refl).
  split; [reflexivity|]. split; reflexivity.
Defined.

Lemma console_app (a b : list event) :
  console (a ++ b) = (console a ++ console b)%list.
Proof. apply flat_map_app. Qed.

Lemma console_failed_turns (w : world) (num_messages : Z)
    (delay_seconds : float) (err : nat -> string) (os : list choice) :
  forall k,
    (forall j, (k <= j < k + List.length os)%nat ->
               delivery w j = Raised (KafkaError (err j))) ->
    console (turns w num_messages delay_seconds k os)
    = map (fun j => failure_line (Z.of_nat j) (KafkaError (err j)))
          (seq k (List.length os)).
Proof.
  induction os as [|o os IH]; intros k H; [reflexivity|].
  cbn [turns List.length seq map]. cbn [List.length] in H.
  rewrite console_app, IH by (intros j Hj; apply H; lia).
  rewrite (turn_events_failed w num_messages delay_seconds k o (err k))
    by (apply H; lia).
  unfold pause_events. destruct (_ <? _)%Z; reflexivity.
Qed.

(** X10.  Delivery errors do not keep the run from completing: when
    every delivery fails, and nothing else does, the console shows the
    banner, one failure line for each message, in order, and then the
    completion line, and [main] returns normally. *)
Theorem failed_deliveries_still_complete (argv : list string) (w : world)
    (N : Z) (D : float) (err : nat -> string) :
  parse_args_from w argv default_namespace = Returned (mk_namespace N D) ->
  connect_raises w = None ->
  close_raises w = None ->
  (forall k, (k < Z.to_nat N)%nat ->
             send_raises w k = None
             /\ ((Z.of_nat k < N - 1)%Z -> pause_raises w D k = None)
             /\ delivery w k = Raised (KafkaError (err k))) ->
  fst (main argv w init_state) = Returned tt
  /\ console (trace (snd (main argv w init_state)))
     = (console (banner w N D)
        ++ map (fun k => failure_line (Z.of_nat k) (KafkaError (err k)))
               (seq 0 (Z.to_nat N))
        ++ [all_sent_line])%list.
Proof.
  intros Hparse Hconn Hclose Hall.
  assert (Hcalm : calm w N D (Z.to_nat N) = true).
  { unfold calm. apply forallb_forall. intros k Hk. apply in_seq in Hk.
    destruct (Hall k ltac:(lia)) as [Hs [Hsl Hd]].
    unfold quiet, escapes. rewrite Hs, Hd. cbn.
    destruct (Z.ltb_spec (Z.of_nat k) (N - 1)) as [Hlt|]; [|reflexivity].
    rewrite (Hsl Hlt). reflexivity. }
  destruct (send_messages_calm w N D Hconn Hcalm)
    as [os [d [Hlen [Hval Hrun]]]].
  rewrite (main_after argv w init_state N D Hparse), Hrun, Hclose.
  cbn [fst snd answer main_end last_words is_none map]. split; [reflexivity|].
  unfold logs. cbn [trace]. rewrite !console_app.
  rewrite (console_failed_turns w N D err os 0)
    by (intros j Hj; apply Hall; lia).
  rewrite Hlen. cbn [console flat_map app]. rewrite app_nil_r. reflexivity.
Qed.

(** A broker that refuses every message. *)
Lemma failed_deliveries_still_complete_witness :
  let w := steady_but (fun _ => None)
             (fun _ => Raised (KafkaError "KafkaTimeoutError")) (fun _ => None) in
  console (trace (snd (main ["--count"; "2"] w init_state)))
  = (console (banner w 2 2)
     ++ [ "❌ Failed to send message 1: KafkaTimeoutError";
          "❌ Failed to send message 2: KafkaTimeoutError";
          "✅ All messages sent!" ])%list.
Proof.
  intros w.
  destruct (failed_deliveries_still_complete ["--count"; "2"] w 2 2%float
              (fun _ => "KafkaTimeoutError")) as [_ H];
    [reflexivity | reflexivity | reflexivity | intros k Hk; repeat split |].
  rewrite H. reflexivity.
Defined.

(** ** The report of a delivered message *)

(** X11.  When the wait for message [i] returns the metadata of the
    broker, the eight lines of the report follow the wait at once, and
    they show the order id, the customer and the products of the very
    message that was published, and the topic, partition and offset of
    the metadata. *)
Theorem delivery_is_reported_as_sent (w : world) (N : Z) (D : float)
    (i : nat) (md : record_metadata) :
  connect_raises w = None ->
  (i < Z.to_nat N)%nat ->
  calm w N D (S i) = true ->
  delivery w i = Returned md ->
  exists pre post c p,
    trace (snd (send_messages N D w init_state))
    = (pre ++ delivered_turn w N i c p md ++ post)%list.
Proof.
  intros Hconn Hi Hcalm Hd.
  destruct (run_reaches w N D (S i) Hconn ltac:(lia) Hcalm)
    as [os [rest [Hlen [Htr _]]]].
  rewrite Htr.
  assert (Hnth : exists o, nth_error os i = Some o).
  { destruct (nth_error os i) as [o|] eqn:E; [eauto|].
    apply nth_error_None in E. lia. }
  destruct Hnth as [o Ho].
  destruct (nth_error_split os i Ho) as [os1 [os2 [-> Hl1]]].
  rewrite length_app in Hlen. cbn [List.length] in Hlen.
  destruct os2 as [|o' os3]; [|cbn [List.length] in Hlen; lia].
  rewrite turns_app. cbn [turns]. rewrite Nat.add_0_l, Hl1, app_nil_r.
  exists (banner w N D ++ turns w N D 0 os1)%list.
  exists (pause_events N D i ++ rest)%list.
  exists (fst o), (snd o).
  unfold turn_events, attempt_events. rewrite Hd.
  unfold success_report, sent, send_value_serializer, delivered_turn.
  rewrite <- !app_assoc. cbn [app py_repr map].
  rewrite map_map. reflexivity.
Qed.

Lemma delivery_is_reported_as_sent_witness :
  calm steady_world 2 0.5 2 = true
  /\ delivery steady_world 1 = Returned (mk_metadata "orders" 0 1)
  /\ exists pre post c p,
       trace (snd (send_messages 2 0.5 steady_world init_state))
       = (pre ++ delivered_turn steady_world 2 1 c p (mk_metadata "orders" 0 1)
              ++ post)%list.
Proof.
  split; [reflexivity|]. split; [reflexivity|].
  apply (delivery_is_reported_as_sent steady_world 2 0.5%float 1
           (mk_metadata "orders" 0 1));
    [reflexivity | simpl; lia | reflexivity | reflexivity].
Defined.

(** ** Every valid order can be built *)

Lemma index_of_firstn (x : string) (l : list string) :
  forall m,
    In x (firstn m l) ->
    (index_of x l < m)%nat /\ nth_error l (index_of x l) = Some x.
Proof.
  induction l as [|y l IH]; intros m Hin.
  - rewrite firstn_nil in Hin. destruct Hin.
  - destruct m as [|m]; [destruct Hin|].
    cbn [firstn] in Hin. cbn [index_of].
    destruct (String.eqb_spec y x) as [->|Hne].
    + split; [lia | reflexivity].
    + destruct Hin as [E|Hin]; [congruence|].
      destruct (IH m Hin) as [Hlt Hnth]. split; [lia | exact Hnth].
Qed.

(** The entries of [p], taken below [m] in the pool and all different
    from the entry at [j], are still below [m - 1] once the slot [j] is
    refilled with the entry at [m - 1]. *)
Lemma pool_keeps (pool : list string) (m j : nat) (x y : string)
    (p : list string) :
  (m <= List.length pool)%nat -> (j < m)%nat ->
  NoDup (firstn m pool) ->
  nth_error pool j = Some x ->
  nth_error pool (m - 1) = Some y ->
  ~ In x p ->
  incl p (firstn m pool) ->
  incl p (firstn (m - 1) (list_set pool j y)).
Proof.
  intros Hm Hj Hnd Hx Hy Hnotin Hinc z Hz.
  assert (Hzx : z <> x) by (intros ->; contradiction).
  apply Hinc in Hz. apply In_nth_error in Hz. destruct Hz as [t Ht].
  rewrite nth_error_firstn in Ht.
  destruct (Nat.ltb_spec t m) as [Htm|]; [|discriminate].
  assert (Htj : t <> j) by (intros ->; congruence).
  destruct (Nat.eq_dec t (m - 1)) as [->|Hne].
  - assert (z = y) by congruence. subst z.
    apply nth_error_In with (n := j).
    rewrite nth_error_firstn.
    destruct (Nat.ltb_spec j (m - 1)); [|lia].
    rewrite nth_error_list_set by lia. rewrite Nat.eqb_refl. reflexivity.
  - apply nth_error_In with (n := t).
    rewrite nth_error_firstn.
    destruct (Nat.ltb_spec t (m - 1)); [|lia].
    rewrite nth_error_list_set by lia.
    destruct (Nat.eqb_spec t j); [contradiction | exact Ht].
Qed.

Lemma sample_loop_reaches (n : nat) (p : list string) :
  forall (i : nat) (pool : list string) (w : world) (s : state),
    List.length pool = n -> (i + List.length p <= n)%nat ->
    NoDup (firstn (n - i) pool) ->
    NoDup p -> incl p (firstn (n - i) pool) ->
    (forall t, (t < List.length p)%nat ->
               rand_raw w (draws s + t) = nth t (sample_draws n pool i p) O) ->
    sample_loop n pool (seq i (List.length p)) w s
    = (Returned p, with_draws s (draws s + List.length p)).
Proof.
  induction p as [|x p IH]; intros i pool w s Hlen Hip Hnd Hndp Hinc Hraw.
  - simpl. unfold ret, with_draws. rewrite Nat.add_0_r.
    destruct s; reflexivity.
  - cbn [List.length] in Hip, Hraw |- *. cbn [seq sample_loop].
    assert (Hxin : In x (firstn (n - i) pool)) by (apply Hinc; left; reflexivity).
    destruct (index_of_firstn x pool (n - i) Hxin) as [Hj Hx].
    destruct (nth_error pool (n - i - 1)) as [y|] eqn:Hy;
      [|apply nth_error_None in Hy; lia].
    pose proof (Hraw 0%nat ltac:(lia)) as H0.
    cbn [sample_draws] in H0, Hraw. rewrite Hy in H0, Hraw.
    cbn [nth] in H0. rewrite Nat.add_0_r in H0.
    unfold bind at 1. unfold randbelow.
    destruct (Nat.eqb_spec (n - i) 0) as [E|_]; [lia|].
    rewrite H0, (Nat.mod_small _ _ Hj), Hx.
    inversion Hndp as [|x' p' Hnotin Hndp']; subst x' p'.
    destruct (pool_step pool (n - i) (index_of x pool) x y)
      as [Hnd' _]; try assumption; try lia.
    set (s1 := mk_state _ (S (draws s)) _ _ _ _).
    unfold bind.
    rewrite (IH (S i) (list_set pool (index_of x pool) y) w s1).
    + unfold ret, with_draws, s1. cbn. repeat f_equal. lia.
    + rewrite length_list_set. assumption.
    + lia.
    + replace (n - S i)%nat with (n - i - 1)%nat by lia. exact Hnd'.
    + exact Hndp'.
    + replace (n - S i)%nat with (n - i - 1)%nat by lia.
      apply (pool_keeps pool (n - i) (index_of x pool) x y p); try assumption;
        try lia.
      intros z Hz. apply Hinc. right. exact Hz.
    + intros t Ht. unfold s1. cbn [draws].
      replace (S (draws s) + t)%nat with (draws s + S t)%nat by lia.
      rewrite (Hraw (S t)) by lia. reflexivity.
Qed.

(** X12.  The builder can produce every valid order: for each customer
    of the catalog and each selection of 1 to 3 different products of
    the catalog, in any order, there are draws of the generator with
    which the builder returns exactly this customer and this
    selection. *)
Theorem every_valid_order_can_be_built (w : world) (s : state) (c : string)
    (p : list string) :
  In c CUSTOMER_IDS ->
  (1 <= List.length p <= 3)%nat ->
  NoDup p ->
  incl p PRODUCT_IDS ->
  fst (create_order_message (playing w (draws s) (draws_for c p)) s)
  = Returned (order_id_at w (clock_reads s),
              order_fields (order_id_at w (clock_reads s)) c p
                           (now_iso w (now_reads s))).
Proof.
  intros Hc Hl Hnd Hinc.
  set (w' := playing w (draws s) (draws_for c p)).
  assert (Hraw : forall t, rand_raw w' (draws s + t) = nth t (draws_for c p) O).
  { intros t. unfold w', playing. cbn [rand_raw].
    replace (draws s + t - draws s)%nat with t by lia. reflexivity. }
  unfold create_order_message.
  unfold bind at 1. unfold time_time_ms at 1.
  set (s1 := mk_state (S (clock_reads s)) _ _ _ _ _).
  (* the customer *)
  assert (Hc' : In c (firstn 5 CUSTOMER_IDS)) by exact Hc.
  destruct (index_of_firstn c CUSTOMER_IDS 5 Hc') as [Hj0 Hx0].
  unfold bind at 1. unfold random_choice.
  change (List.length CUSTOMER_IDS) with 5%nat.
  unfold CUSTOMER_IDS at 1. cbv beta iota.
  unfold bind at 1. unfold randbelow at 1. cbn [Nat.eqb].
  change (draws s1) with (draws s).
  pose proof (Hraw 0%nat) as H0. rewrite Nat.add_0_r in H0.
  rewrite H0. unfold draws_for at 1. cbn [nth].
  rewrite (Nat.mod_small _ _ Hj0).
  fold CUSTOMER_IDS. rewrite Hx0. unfold ret at 1.
  (* the number of products *)
  unfold bind at 1. unfold random_randint.
  change (0 <? 3 + 1 - 1)%Z with true. cbv iota.
  unfold bind at 1. unfold randbelow at 1.
  change (Z.to_nat (3 + 1 - 1)) with 3%nat. cbn [Nat.eqb draws].
  replace (S (draws s)) with (draws s + 1)%nat by lia.
  rewrite (Hraw 1%nat). unfold draws_for at 1. cbn [nth].
  rewrite (Nat.mod_small (List.length p - 1) 3) by lia.
  unfold ret at 1.
  replace (1 + Z.of_nat (List.length p - 1))%Z
    with (Z.of_nat (List.length p)) by lia.
  (* the products *)
  unfold bind at 1. unfold random_sample.
  change (List.length PRODUCT_IDS) with 5%nat.
  destruct (Z.leb_spec 0 (Z.of_nat (List.length p))); [|lia].
  destruct (Z.leb_spec (Z.of_nat (List.length p)) (Z.of_nat 5)); [|lia].
  cbn [andb]. rewrite Nat2Z.id.
  set (s3 := mk_state _ (S (draws s + 1)) _ _ _ _).
  rewrite (sample_loop_reaches 5 p 0 PRODUCT_IDS w' s3).
  - reflexivity.
  - reflexivity.
  - lia.
  - exact NoDup_PRODUCT_IDS.
  - exact Hnd.
  - exact Hinc.
  - intros t Ht. unfold s3. cbn [draws].
    replace (S (draws s + 1) + t)%nat with (draws s + S (S t))%nat by lia.
    rewrite Hraw. reflexivity.
Qed.

(** The fifth customer orders the products 004, 001 and 005, in this
    order. *)
Lemma every_valid_order_can_be_built_witness :
  draws_for "customer-005" ["product-004"; "product-001"; "product-005"]
  = [4; 2; 3; 0; 0]%nat
  /\ fst (create_order_message
            (playing steady_world 0
               (draws_for "customer-005"
                  ["product-004"; "product-001"; "product-005"]))
            init_state)
     = Returned ("order-1700000000000",
                 order_fields "order-1700000000000" "customer-005"
                   ["product-004"; "product-001"; "product-005"]
                   "2024-01-01T12:00:00.000001").
Proof.
  split; [reflexivity|].
  apply (every_valid_order_can_be_built steady_world init_state "customer-005"
           ["product-004"; "product-001"; "product-005"]).
  - simpl. tauto.
  - simpl. lia.
  - repeat (constructor; [simpl; intuition discriminate|]). constructor.
  - intros x [<-|[<-|[<-|[]]]]; simpl; tauto.
Defined.
